(** * BeautyBird appointment reminders: a shallow embedding of [main.go]

    The development follows the layout of the program.

    - [GoTime] and [GoStrings] model the parts of Go's [time] and [strings]
      packages that [main.go] calls: instants, durations, locations, the
      civil calendar, the layouts the program formats or parses with,
      [Duration.String] and [strings.Split].
    - [Beauty] holds the program itself: the [booking] and
      [bookingContainer] structs, the [views/booking.gohtml] template, the
      [checkTime] helper and the [bbScheduler] handler, written over an
      explicit [World] (system clock, response writer, calls made to the
      MessageBird services, log).
    - [Spec] holds the outcome type and the validation rule of the
      specification, written from its words, against which [checkTime] is
      compared.
    - The theorems come last. *)

From Stdlib Require Import ZArith Lia Bool List String Ascii DecimalString.
From stdpp Require Import base gmap strings.

Open Scope Z_scope.

(* ===================================================================== *)
(** * Go's [time] package, as far as the program uses it *)
(* ===================================================================== *)

Module GoTime.

(** ** Durations: [type Duration int64], a count of nanoseconds *)

Definition Duration := Z.

Definition minDuration : Duration := - 2 ^ 63.
Definition maxDuration : Duration := 2 ^ 63 - 1.

Definition Nanosecond : Duration := 1.
Definition Microsecond : Duration := 1000 * Nanosecond.
Definition Millisecond : Duration := 1000 * Microsecond.
Definition Second : Duration := 1000 * Millisecond.
Definition Minute : Duration := 60 * Second.
Definition Hour : Duration := 60 * Minute.

(** A [Duration] is a value of the int64 range. *)
Definition isDuration (d : Z) : Prop := minDuration <= d <= maxDuration.

(** int64 arithmetic wraps around. *)
Definition wrap64 (x : Z) : Z := (x + 2 ^ 63) mod 2 ^ 64 - 2 ^ 63.

(** Unary minus on a [Duration] ([-reminderDiff] in the handler). *)
Definition negDuration (d : Duration) : Duration := wrap64 (- d).

(** What [Sub] returns when the difference does not fit: the nearest bound. *)
Definition saturate (x : Z) : Duration :=
  if x <? minDuration then minDuration
  else if maxDuration <? x then maxDuration
  else x.

(** ** Locations: a first zone and the later transitions, in time order *)

Record zoneTrans := { when : Z; offset : Z }.

Record Location := {
  locName : string;
  firstOffset : Z;
  tx : list zoneTrans
}.

Definition alpha : Z := - 2 ^ 63.
Definition omega : Z := 2 ^ 63 - 1.

Definition UTC : Location :=
  {| locName := "UTC"; firstOffset := 0; tx := [] |}.

(** [Location.lookup]: the offset in force at Unix second [sec], with the
    interval [start, end) over which it stays in force. *)
Fixpoint lookupTx (off start : Z) (l : list zoneTrans) (sec : Z) : Z * Z * Z :=
  match l with
  | [] => (off, start, omega)
  | t :: rest =>
      if sec <? when t then (off, start, when t)
      else lookupTx (offset t) (when t) rest sec
  end.

Definition lookup (l : Location) (sec : Z) : Z * Z * Z :=
  lookupTx (firstOffset l) alpha (tx l) sec.

Definition offsetAt (l : Location) (sec : Z) : Z := fst (fst (lookup l sec)).

(** ** Instants *)

(** A [Time] is an instant, here in nanoseconds since the Unix epoch, and
    the location it is presented in.  No value of the program carries a
    monotonic clock reading: [In] strips it from [Now()], and parsed or
    constructed times have none. *)
Record Time := { inst : Z; tloc : Location }.

(** The zero [Time]: January 1, year 1, 00:00:00 UTC. *)
Definition zeroTime : Time :=
  {| inst := -62135596800 * Second; tloc := UTC |}.

Definition unixSec (t : Time) : Z := inst t / Second.
Definition nanosecond (t : Time) : Z := inst t mod Second.

Definition In (t : Time) (l : Location) : Time :=
  {| inst := inst t; tloc := l |}.

Definition Before (t u : Time) : bool := inst t <? inst u.
Definition After (t u : Time) : bool := inst t >? inst u.
Definition Equal (t u : Time) : bool := inst t =? inst u.

(** [t.Sub(u)]: the duration [t - u], or the largest (smallest) duration
    when the difference exceeds it. *)
Definition Sub (t u : Time) : Duration := saturate (inst t - inst u).

Definition Add (t : Time) (d : Duration) : Time :=
  {| inst := inst t + d; tloc := tloc t |}.

(** ** The civil calendar (proleptic Gregorian) *)

Definition daysFromCivil (y m d : Z) : Z :=
  let y := if m <=? 2 then y - 1 else y in
  let era := y / 400 in
  let yoe := y - era * 400 in
  let doy := (153 * (if 2 <? m then m - 3 else m + 9) + 2) / 5 + d - 1 in
  let doe := yoe * 365 + yoe / 4 - yoe / 100 + doy in
  era * 146097 + doe - 719468.

Definition civilFromDays (z : Z) : Z * Z * Z :=
  let z := z + 719468 in
  let era := z / 146097 in
  let doe := z - era * 146097 in
  let yoe := (doe - doe / 1460 + doe / 36524 - doe / 146096) / 365 in
  let doy := doe - (365 * yoe + yoe / 4 - yoe / 100) in
  let mp := (5 * doy + 2) / 153 in
  let d := doy - (153 * mp + 2) / 5 + 1 in
  let m := if mp <? 10 then mp + 3 else mp - 9 in
  ((if m <=? 2 then yoe + era * 400 + 1 else yoe + era * 400), m, d).

Definition isLeap (y : Z) : bool :=
  (y mod 4 =? 0) && (negb (y mod 100 =? 0) || (y mod 400 =? 0)).

Definition daysIn (m y : Z) : Z :=
  if m =? 2 then (if isLeap y then 29 else 28)
  else if (m =? 4) || (m =? 6) || (m =? 9) || (m =? 11) then 30
  else 31.

(** Seconds since the Unix epoch of the wall clock shown in [t]'s location. *)
Definition wallSec (t : Time) : Z := unixSec t + offsetAt (tloc t) (unixSec t).

Definition date (t : Time) : Z * Z * Z := civilFromDays (wallSec t / 86400).

Definition Year (t : Time) : Z := fst (fst (date t)).
Definition Month (t : Time) : Z := snd (fst (date t)).
Definition Day (t : Time) : Z := snd (date t).
Definition HourOf (t : Time) : Z := (wallSec t mod 86400) / 3600.
Definition MinuteOf (t : Time) : Z := (wallSec t mod 3600) / 60.
(** Sunday is 0; January 1, 1970 was a Thursday. *)
Definition Weekday (t : Time) : Z := (wallSec t / 86400 + 4) mod 7.

(** [time.Date]: the instant of a wall clock in a location.  Fields out of
    their range carry over into the next one; the offset is looked up at the
    wall clock taken as UTC and once more when that misses the zone found. *)
Definition Date (y m d h mi s ns : Z) (l : Location) : Time :=
  let m0 := m - 1 in
  let y' := y + m0 / 12 in
  let m' := m0 mod 12 + 1 in
  let days := daysFromCivil y' m' 1 + (d - 1) in
  let unix := days * 86400 + h * 3600 + mi * 60 + s + ns / Second in
  let nsec := ns mod Second in
  let '(off, start, stop) := lookup l unix in
  let unix' :=
    if off =? 0 then unix
    else
      let utc := unix - off in
      let off' := if (utc <? start) || (stop <=? utc)
                  then offsetAt l utc else off in
      unix - off' in
  {| inst := unix' * Second + nsec; tloc := l |}.

(** ** Formatting and parsing with a layout *)

(** A layout is cut into the reference-time elements it is made of, as
    [nextStdChunk] does.  The comment gives the element as it is written in
    a layout string. *)
Inductive chunk :=
  | stdLongYear      (* 2006 *)
  | stdZeroMonth     (* 01 *)
  | stdMonth         (* Jan *)
  | stdZeroDay       (* 02 *)
  | stdWeekDay       (* Mon *)
  | stdHour          (* 15 *)
  | stdHour12        (* 3 *)
  | stdZeroHour12    (* 03 *)
  | stdZeroMinute    (* 04 *)
  | stdPM            (* PM *)
  | lit (s : string).

(** The layouts of the program. *)
(** ["2006-01-02"] *)
Definition layoutDate : list chunk :=
  [stdLongYear; lit "-"; stdZeroMonth; lit "-"; stdZeroDay].
(** ["2006-01-02 15:04"] *)
Definition layoutDateTime : list chunk :=
  [stdLongYear; lit "-"; stdZeroMonth; lit "-"; stdZeroDay; lit " ";
   stdHour; lit ":"; stdZeroMinute].
(** ["03:04 PM"] *)
Definition layoutClock : list chunk :=
  [stdZeroHour12; lit ":"; stdZeroMinute; lit " "; stdPM].
(** ["Mon, 02 Jan 2006 3:04 PM"] *)
Definition layoutLong : list chunk :=
  [stdWeekDay; lit ", "; stdZeroDay; lit " "; stdMonth; lit " "; stdLongYear;
   lit " "; stdHour12; lit ":"; stdZeroMinute; lit " "; stdPM].

Definition itoa (n : Z) : string := NilZero.string_of_uint (N.to_uint (Z.to_N n)).

Fixpoint zeros (n : nat) : string :=
  match n with O => "" | S k => String "0" (zeros k) end.

(** [appendInt]: decimal, zero padded to [width], with a sign when negative. *)
Definition appendInt (x : Z) (width : nat) : string :=
  let digits := itoa (Z.abs x) in
  (if x <? 0 then "-" else "") +:+
  zeros (width - String.length digits) +:+ digits.

Definition shortDayNames : list string :=
  ["Sun"; "Mon"; "Tue"; "Wed"; "Thu"; "Fri"; "Sat"].
Definition shortMonthNames : list string :=
  ["Jan"; "Feb"; "Mar"; "Apr"; "May"; "Jun";
   "Jul"; "Aug"; "Sep"; "Oct"; "Nov"; "Dec"].

Definition hour12 (h : Z) : Z := if h mod 12 =? 0 then 12 else h mod 12.

Definition formatChunk (t : Time) (c : chunk) : string :=
  match c with
  | stdLongYear => appendInt (Year t) 4
  | stdZeroMonth => appendInt (Month t) 2
  | stdMonth => nth (Z.to_nat (Month t - 1)) shortMonthNames ""
  | stdZeroDay => appendInt (Day t) 2
  | stdWeekDay => nth (Z.to_nat (Weekday t)) shortDayNames ""
  | stdHour => appendInt (HourOf t) 2
  | stdHour12 => appendInt (hour12 (HourOf t)) 0
  | stdZeroHour12 => appendInt (hour12 (HourOf t)) 2
  | stdZeroMinute => appendInt (MinuteOf t) 2
  | stdPM => if 12 <=? HourOf t then "PM" else "AM"
  | lit s => s
  end.

Definition Format (t : Time) (layout : list chunk) : string :=
  fold_right (fun c acc => formatChunk t c +:+ acc) "" layout.

(** *** Parsing *)

Definition isDigit (c : ascii) : bool :=
  let n := nat_of_ascii c in (48 <=? n)%nat && (n <=? 57)%nat.

Definition digitVal (c : ascii) : Z := Z.of_nat (nat_of_ascii c) - 48.

(** [getnum]: one or two digits; exactly two when [fixed]. *)
Definition getnum (s : string) (fixed : bool) : option (Z * string) :=
  match s with
  | String c1 rest =>
      if isDigit c1 then
        match rest with
        | String c2 rest' =>
            if isDigit c2 then Some (digitVal c1 * 10 + digitVal c2, rest')
            else if fixed then None else Some (digitVal c1, rest)
        | EmptyString => if fixed then None else Some (digitVal c1, rest)
        end
      else None
  | EmptyString => None
  end.

Fixpoint cutspace (s : string) : string :=
  match s with
  | String c s' => if Ascii.eqb c " " then cutspace s' else s
  | EmptyString => s
  end.

(** [skip]: the literal text of the layout must lead the value; a run of
    spaces in the layout stands for any run of spaces in the value.
    [inRun] says that the spaces of the value were cut at the start of the
    run of layout spaces being read. *)
Fixpoint skipFrom (inRun : bool) (prefix value : string) : option string :=
  match prefix with
  | EmptyString => Some value
  | String c prefix' =>
      if Ascii.eqb c " " then
        if inRun then skipFrom true prefix' value
        else
          match value with
          | String v _ =>
              if Ascii.eqb v " " then skipFrom true prefix' (cutspace value)
              else None
          | EmptyString => skipFrom true prefix' value
          end
      else
        match value with
        | String v value' =>
            if Ascii.eqb v c then skipFrom false prefix' value' else None
        | EmptyString => None
        end
  end.

Definition skip (value prefix : string) : option string :=
  skipFrom false prefix value.

Record fields := {
  fYear : Z; fMonth : Z; fDay : Z; fHour : Z; fMin : Z
}.

(** What [Parse] does with one element of the layout.  The program parses
    with [layoutDateTime] only; an element that layout does not have is
    refused here. *)
Definition parseChunk (c : chunk) (value : string) (f : fields)
  : option (fields * string) :=
  match c with
  | lit p =>
      match skip value p with
      | Some v => Some (f, v)
      | None => None
      end
  | stdLongYear =>
      match value with
      | String a (String b (String c' (String d v))) =>
          if isDigit a && isDigit b && isDigit c' && isDigit d then
            Some ({| fYear := ((digitVal a * 10 + digitVal b) * 10
                               + digitVal c') * 10 + digitVal d;
                     fMonth := fMonth f; fDay := fDay f;
                     fHour := fHour f; fMin := fMin f |}, v)
          else None
      | _ => None
      end
  | stdZeroMonth =>
      match getnum value true with
      | Some (m, v) =>
          if (m <=? 0) || (12 <? m) then None
          else Some ({| fYear := fYear f; fMonth := m; fDay := fDay f;
                        fHour := fHour f; fMin := fMin f |}, v)
      | None => None
      end
  | stdZeroDay =>
      match getnum value true with
      | Some (d, v) =>
          Some ({| fYear := fYear f; fMonth := fMonth f; fDay := d;
                   fHour := fHour f; fMin := fMin f |}, v)
      | None => None
      end
  | stdHour =>
      match getnum value false with
      | Some (h, v) =>
          if (h <? 0) || (24 <=? h) then None
          else Some ({| fYear := fYear f; fMonth := fMonth f; fDay := fDay f;
                        fHour := h; fMin := fMin f |}, v)
      | None => None
      end
  | stdZeroMinute =>
      match getnum value true with
      | Some (mi, v) =>
          if (mi <? 0) || (60 <=? mi) then None
          else Some ({| fYear := fYear f; fMonth := fMonth f; fDay := fDay f;
                        fHour := fHour f; fMin := mi |}, v)
      | None => None
      end
  | _ => None
  end.

Fixpoint parseChunks (layout : list chunk) (value : string) (f : fields)
  : option (fields * string) :=
  match layout with
  | [] => Some (f, value)
  | c :: layout' =>
      match parseChunk c value f with
      | Some (f', v) => parseChunks layout' v f'
      | None => None
      end
  end.

(** A [*time.ParseError].  The layout and the value it was built from are
    kept.  Its other fields (the layout element, the value element and the
    message) tell where the parse stopped and shape the text of the error;
    they are left out, and so is that text, which the program only prints. *)
Record ParseError := {
  Layout : list chunk;
  Value : string
}.

(** [time.ParseInLocation]: the time and the error.  With an error the time
    is the zero [Time]. *)
Definition ParseInLocation (layout : list chunk) (value : string) (l : Location)
  : Time * option ParseError :=
  match parseChunks layout value
          {| fYear := 0; fMonth := 1; fDay := 1; fHour := 0; fMin := 0 |} with
  | Some (f, EmptyString) =>
      if (fDay f <? 1) || (daysIn (fMonth f) (fYear f) <? fDay f)
      then (zeroTime, Some {| Layout := layout; Value := value |})
      else (Date (fYear f) (fMonth f) (fDay f) (fHour f) (fMin f) 0 0 l, None)
  | _ => (zeroTime, Some {| Layout := layout; Value := value |})
  end.

(** ** [Duration.String] *)

(** [fmtFrac]: the fraction of [v / 10^prec] without its trailing zeros
    (with the point, or empty), and the integer part. *)
Fixpoint fmtFrac (prec : nat) (v : Z) (printing : bool) (acc : string)
  : string * Z :=
  match prec with
  | O => ((if printing then "." +:+ acc else acc), v)
  | S k =>
      let digit := v mod 10 in
      let printing' := printing || negb (digit =? 0) in
      fmtFrac k (v / 10) printing'
              (if printing' then itoa digit +:+ acc else acc)
  end.

Definition DurationString (d : Duration) : string :=
  let u := Z.abs d in
  let body :=
    if u <? Second then
      if u =? 0 then "0s"
      else if u <? Microsecond then
        let '(frac, i) := fmtFrac 0 u false "" in itoa i +:+ frac +:+ "ns"
      else if u <? Millisecond then
        let '(frac, i) := fmtFrac 3 u false "" in
        itoa i +:+ frac
             +:+ String (ascii_of_nat 194) (String (ascii_of_nat 181) "s")
      else
        let '(frac, i) := fmtFrac 6 u false "" in itoa i +:+ frac +:+ "ms"
    else
      let '(frac, secs) := fmtFrac 9 u false "" in
      let s := itoa (secs mod 60) +:+ frac +:+ "s" in
      let mins := secs / 60 in
      if 0 <? mins then
        let s := itoa (mins mod 60) +:+ "m" +:+ s in
        let hours := mins / 60 in
        if 0 <? hours then itoa hours +:+ "h" +:+ s else s
      else s in
  if d <? 0 then "-" +:+ body else body.

End GoTime.

(* ===================================================================== *)
(** * Go's [strings] package: [Split] *)
(* ===================================================================== *)

Module GoStrings.

(** [splitFrom sep skip cur s]: the fields of [s] between occurrences of
    [sep]; [cur] is the field being read, [skip] the characters of a
    separator still to pass over. *)
Fixpoint splitFrom (sep : string) (skip : nat) (cur : string) (s : string)
  : list string :=
  match s with
  | EmptyString => [cur]
  | String c s' =>
      match skip with
      | S k => splitFrom sep k cur s'
      | O =>
          if String.prefix sep s
          then cur :: splitFrom sep (String.length sep - 1) "" s'
          else splitFrom sep O (cur +:+ String c "") s'
      end
  end.

(** [strings.Split(s, sep)] for a separator that is not empty. *)
Definition Split (s sep : string) : list string := splitFrom sep O "" s.

End GoStrings.

(* ===================================================================== *)
(** * The program: [main.go] and [views/booking.gohtml] *)
(* ===================================================================== *)

Module Beauty.

Import GoTime.

(** ** Data structures *)

(** [BookingTime] is a pointer in the program; it is [nil] in the booking
    that pre-fills the empty form. *)
Record booking := {
  Name : string;
  Treatment : string;
  Phone : string;
  BookingTime : option Time;
  MinDate : string
}.

Record bookingContainer := {
  Booking : booking;
  Message : string
}.

(** ** The request *)

(** [Form] is the form after [r.ParseForm()]: the values sent for each key. *)
Record Request := {
  Method : string;
  Form : gmap string (list string)
}.

(** [r.FormValue(key)]: the first value for [key], or the empty string. *)
Definition FormValue (r : Request) (key : string) : string :=
  match Form r !! key with
  | Some (v :: _) => v
  | _ => ""
  end.

(** ** The world a request is handled in *)

(** The arguments of one [sms.Create] call. *)
Record SmsCall := {
  originator : string;
  recipients : list string;
  body : string;
  ScheduledDatetime : Time
}.

(** One execution of the ["default"] template into the response writer. *)
Record Rendered := {
  view : string;
  data : bookingContainer
}.

(** What the host and the MessageBird services answer.
    - [LoadLocation]: the zone database of the host;
    - [lookupRead phone countryCode]: the error of [lookup.Read], if any;
    - [smsCreate call]: the message created (as it is printed) or the error. *)
Record Env := {
  LoadLocation : string -> option Location;
  lookupRead : string -> string -> option string;
  smsCreate : SmsCall -> string + string
}.

(** A line of the standard logger: what [log.Println] was given.  For a
    string, an error of the services or an [*sms.Message] it is the text
    printed; for a [*time.ParseError] it is the error, whose text is not
    modelled. *)
Inductive logLine :=
  | Line (text : string)
  | ParseErrorLine (e : ParseError).

Coercion Line : string >-> logLine.

(** - [clock] gives the successive readings of the system clock
      (nanoseconds since the Unix epoch), [ticks] how many were taken;
    - [response] is what was written to the [http.ResponseWriter];
    - [lookups] and [outbox] are the calls made to the Lookup and SMS
      services, oldest first;
    - [logs] is the standard logger's output. *)
Record World := {
  clock : nat -> Z;
  ticks : nat;
  response : list Rendered;
  lookups : list (string * string);
  outbox : list SmsCall;
  logs : list logLine
}.

(** A computation either ends with a value and a world, or panics. *)
Inductive Result (A : Type) :=
  | Ok (a : A)
  | Panic (msg : string).
Arguments Ok {A} a.
Arguments Panic {A} msg.

Definition M (A : Type) : Type := World -> Result (A * World).

Definition ret {A} (a : A) : M A := fun w => Ok (a, w).

Definition bind {A B} (m : M A) (k : A -> M B) : M B :=
  fun w => match m w with
           | Ok (a, w') => k a w'
           | Panic msg => Panic msg
           end.

Definition panic {A} (msg : string) : M A := fun _ => Panic msg.

Declare Scope go_scope.
Delimit Scope go_scope with go.
Notation "x <- m ;; k" := (bind m (fun x => k))
  (at level 100, m at next level, right associativity) : go_scope.
Notation "m ;;; k" := (bind m (fun _ => k))
  (at level 100, right associativity) : go_scope.
Local Open Scope go_scope.

(** [time.Now()]: the next reading of the clock.  The program puts every
    reading into its own location with [In] before it uses it. *)
Definition timeNow : M Time :=
  fun w =>
    Ok ({| inst := clock w (ticks w); tloc := UTC |},
        {| clock := clock w; ticks := S (ticks w); response := response w;
           lookups := lookups w; outbox := outbox w; logs := logs w |}).

(** [log.Println]. *)
Definition logPrintln (line : logLine) : M unit :=
  fun w =>
    Ok (tt,
        {| clock := clock w; ticks := ticks w; response := response w;
           lookups := lookups w; outbox := outbox w;
           logs := logs w ++ [line] |}).

(** [if err != nil { log.Println(err) }]. *)
Definition logIfErr (err : option logLine) : M unit :=
  match err with
  | Some e => logPrintln e
  | None => ret tt
  end.

(** [time.LoadLocation]: a [nil] location and an error when the host does
    not know the zone. *)
Definition loadLocation (env : Env) (name : string) : option Location * option string :=
  match LoadLocation env name with
  | Some l => (Some l, None)
  | None => (None, Some ("unknown time zone " +:+ name))
  end.

(** [lookup.Read(client, phone, &lookup.Params{CountryCode: cc})], of which
    the program keeps the error only. *)
Definition lookupReadCall (env : Env) (phone cc : string) : M (option string) :=
  fun w =>
    Ok (lookupRead env phone cc,
        {| clock := clock w; ticks := ticks w; response := response w;
           lookups := lookups w ++ [(phone, cc)]; outbox := outbox w;
           logs := logs w |}).

(** [sms.Create(client, originator, recipients, body, &sms.Params{...})]. *)
Definition smsCreateCall (env : Env) (call : SmsCall) : M (string + string) :=
  fun w =>
    Ok (smsCreate env call,
        {| clock := clock w; ticks := ticks w; response := response w;
           lookups := lookups w; outbox := outbox w ++ [call];
           logs := logs w |}).

(** [RenderDefaultTemplate(w, thisView, data)]: the template files are those
    of the program, so they parse, and the ["default"] template is executed
    with [data] into the response writer. *)
Definition RenderDefaultTemplate (thisView : string) (d : bookingContainer) : M unit :=
  fun w =>
    Ok (tt,
        {| clock := clock w; ticks := ticks w;
           response := response w ++ [{| view := thisView; data := d |}];
           lookups := lookups w; outbox := outbox w; logs := logs w |}).

(** ** [views/booking.gohtml] *)

(** What the ["yield"] template shows of its data: the [value] attribute of
    the three text inputs (absent for an empty field), the [min] attribute of
    the date input, and the message section (absent for an empty message).
    The date and time inputs never get a value. *)
Record FormView := {
  nameValue : option string;
  treatmentValue : option string;
  phoneValue : option string;
  dateMin : string;
  messageShown : option string
}.

Definition ifSet (s : string) : option string :=
  if String.eqb s "" then None else Some s.

Definition yield (c : bookingContainer) : FormView :=
  {| nameValue := ifSet (Name (Booking c));
     treatmentValue := ifSet (Treatment (Booking c));
     phoneValue := ifSet (Phone (Booking c));
     dateMin := MinDate (Booking c);
     messageShown := ifSet (Message c) |}.

(** ** [checkTime] *)

(** [xs[0]]: indexing an empty slice panics. *)
Definition index0 (xs : list string) : M string :=
  match xs with
  | x :: _ => ret x
  | [] => panic "runtime error: index out of range [0] with length 0"
  end.

(** [checkTime(w, bookingTime, reminderDiff, loc)].  The response writer [w]
    is the [response] of the world.  [loc] is not [nil]: the handler has
    used it in [Time.In] before it calls [checkTime]. *)
Definition checkTime (bookingTime : Time) (reminderDiff : Duration)
    (loc : Location) : M string :=
  let bookingYear := Year bookingTime in
  let bookingMonth := Month bookingTime in
  let bookingDay := Day bookingTime in
  let openingTime := Date bookingYear bookingMonth bookingDay 9 0 0 0 loc in
  let closingTime := Date bookingYear bookingMonth bookingDay 18 0 0 0 loc in
  t <- timeNow ;;
  let now := In t loc in
  let timeBeforeBooking := Sub bookingTime now in
  if Before bookingTime now then
    ret "Cannot make a booking before now. Please try again!"
  else if Before bookingTime openingTime then
    ret ("We're not open yet! Please book your appointment between "
         +:+ Format openingTime layoutClock +:+ " and "
         +:+ Format closingTime layoutClock +:+ ".")
  else if After bookingTime closingTime then
    ret ("We're closed! Please book your appointment between "
         +:+ Format openingTime layoutClock +:+ " and "
         +:+ Format closingTime layoutClock +:+ ".")
  else if timeBeforeBooking <? reminderDiff then
    h <- index0 (GoStrings.Split (DurationString reminderDiff) "h") ;;
    ret ("Please book an appointment " +:+ h +:+ " hours in advance.")
  else
    ret "Success!".

(** ** [bbScheduler] *)

Definition newline : string := String (ascii_of_nat 10) "".

(** [time.ParseDuration("3h")] is [3 * Hour] with no error. *)
Definition reminderDiff : Duration := 3 * Hour.

Definition bbScheduler (env : Env) (r : Request) : M unit :=
  let '(loc, err) := loadLocation env "Europe/Amsterdam" in
  logIfErr (option_map Line err) ;;;
  t0 <- timeNow ;;
  match loc with
  | None => panic "time: missing Location in call to Time.In"
  | Some loc =>
    let BookingEmpty :=
      {| Name := ""; Treatment := ""; Phone := ""; BookingTime := None;
         MinDate := Format (In t0 loc) layoutDate |} in
    if String.eqb (Method r) "POST" then
      let '(bookingTime, err) :=
        ParseInLocation layoutDateTime
          (FormValue r "date" +:+ " " +:+ FormValue r "time") loc in
      logIfErr (option_map ParseErrorLine err) ;;;
      let reminderTime := Add bookingTime (negDuration reminderDiff) in
      t1 <- timeNow ;;
      let ThisBooking :=
        {| Name := FormValue r "name";
           Treatment := FormValue r "treatment";
           Phone := FormValue r "phone";
           BookingTime := Some bookingTime;
           MinDate := Format (In t1 loc) layoutDate |} in
      err <- lookupReadCall env (FormValue r "phone") "NL" ;;
      match err with
      | Some _ =>
          RenderDefaultTemplate "views/booking.gohtml"
            {| Booking := ThisBooking;
               Message := "Please enter a valid phone number." |}
      | None =>
          status <- checkTime bookingTime reminderDiff loc ;;
          if String.eqb status "Success!" then
            let successStatus :=
              "Done! We've set up an appointment for you at "
              +:+ Format bookingTime layoutLong +:+ " for "
              +:+ FormValue r "treatment" +:+ ". We'll send a reminder to "
              +:+ FormValue r "phone" +:+ " at "
              +:+ Format reminderTime layoutLong
              +:+ ". Thanks for using BeautyBird!" in
            let reminderMessage :=
              "Gentle reminder: you've got an appointment with BeautyBird at "
              +:+ Format bookingTime layoutLong +:+ ". See you then!" in
            res <- smsCreateCall env
                     {| originator := "BeautyBird";
                        recipients := [FormValue r "phone"];
                        body := reminderMessage;
                        ScheduledDatetime := reminderTime |} ;;
            match res with
            | inr e =>
                logPrintln (Line e) ;;;
                RenderDefaultTemplate "views/booking.gohtml"
                  {| Booking := ThisBooking;
                     Message := e +:+ newline
                                +:+ ". Please check your details and try again!" |}
            | inl msg =>
                logPrintln (Line msg) ;;;
                RenderDefaultTemplate "views/booking.gohtml"
                  {| Booking := ThisBooking; Message := successStatus |}
            end
          else if negb (String.eqb status "") then
            RenderDefaultTemplate "views/booking.gohtml"
              {| Booking := ThisBooking; Message := status |}
          else
            RenderDefaultTemplate "views/booking.gohtml"
              {| Booking := BookingEmpty; Message := "" |}
      end
    else
      RenderDefaultTemplate "views/booking.gohtml"
        {| Booking := BookingEmpty; Message := "" |}
  end.

End Beauty.

(* ===================================================================== *)
(** * The time validator of the specification *)
(* ===================================================================== *)

Module Spec.

Import GoTime.

(** The tagged result of the validator. *)
Inductive ValidationOutcome :=
  | Valid
  | BeforeNow
  | BeforeOpening
  | AfterClosing
  | TooSoon.

(** Opening and closing time of day, in hours. *)
Record BusinessHours := { opensAt : Z; closesAt : Z }.

(** The business hours put on the calendar date of the appointment. *)
Definition openingInstant (appointment : Time) (hours : BusinessHours)
    (zone : Location) : Time :=
  Date (Year appointment) (Month appointment) (Day appointment)
       (opensAt hours) 0 0 0 zone.

Definition closingInstant (appointment : Time) (hours : BusinessHours)
    (zone : Location) : Time :=
  Date (Year appointment) (Month appointment) (Day appointment)
       (closesAt hours) 0 0 0 zone.

(** The rule set on instants: the first condition that matches wins. *)
Definition firstMatch (appointment now leadTime opening closing : Z)
  : ValidationOutcome :=
  if appointment <? now then BeforeNow
  else if appointment <? opening then BeforeOpening
  else if closing <? appointment then AfterClosing
  else if appointment - now <? leadTime then TooSoon
  else Valid.

(** [Validate(appointmentInstant, now, leadTime, businessHours)], in the
    fixed zone. *)
Definition Validate (appointment now : Time) (leadTime : Z)
    (hours : BusinessHours) (zone : Location) : ValidationOutcome :=
  firstMatch (inst appointment) (inst now) leadTime
         (inst (openingInstant appointment hours zone))
         (inst (closingInstant appointment hours zone)).

End Spec.

(* ===================================================================== *)
(** * The program against the specification *)
(* ===================================================================== *)

Import GoTime Beauty Spec.

(** The fixed configuration of the salon, as [checkTime] has it. *)
Definition salonHours : BusinessHours := {| opensAt := 9; closesAt := 18 |}.

(** [checkTime] answers with a sentence; this is the outcome a sentence
    stands for. *)
Definition outcomeOf (status : string) : option ValidationOutcome :=
  if String.eqb status "Success!" then Some Valid
  else if String.eqb status "Cannot make a booking before now. Please try again!"
  then Some BeforeNow
  else if String.prefix "We're not open yet! " status then Some BeforeOpening
  else if String.prefix "We're closed! " status then Some AfterClosing
  else if String.prefix "Please book an appointment" status then Some TooSoon
  else None.

(** The world after one reading of the clock, and the reading. *)
Definition tick (w : World) : World :=
  {| clock := clock w; ticks := S (ticks w); response := response w;
     lookups := lookups w; outbox := outbox w; logs := logs w |}.

Definition reading (w : World) (loc : Location) : Time :=
  In {| inst := clock w (ticks w); tloc := UTC |} loc.

(** The status of a run of [checkTime], when it did not panic. *)
Definition statusOf (r : Result (string * World)) : option string :=
  match r with
  | Ok (s, _) => Some s
  | Panic _ => None
  end.

(** The decision [checkTime] takes, with the comparisons as the program
    makes them. *)
Definition switchOf (bookingTime now : Time) (lead : Duration) (loc : Location)
  : ValidationOutcome :=
  if Before bookingTime now then BeforeNow
  else if Before bookingTime (openingInstant bookingTime salonHours loc)
  then BeforeOpening
  else if After bookingTime (closingInstant bookingTime salonHours loc)
  then AfterClosing
  else if Sub bookingTime now <? lead then TooSoon
  else Valid.

(** ** The worlds a request goes through *)

Definition logged (line : logLine) (w : World) : World :=
  {| clock := clock w; ticks := ticks w; response := response w;
     lookups := lookups w; outbox := outbox w; logs := logs w ++ [line] |}.

Definition logIf (err : option ParseError) (w : World) : World :=
  match err with
  | Some e => logged (ParseErrorLine e) w
  | None => w
  end.

Definition looked (phone cc : string) (w : World) : World :=
  {| clock := clock w; ticks := ticks w; response := response w;
     lookups := lookups w ++ [(phone, cc)]; outbox := outbox w;
     logs := logs w |}.

Definition sent (call : SmsCall) (w : World) : World :=
  {| clock := clock w; ticks := ticks w; response := response w;
     lookups := lookups w; outbox := outbox w ++ [call]; logs := logs w |}.

Definition rendered (d : bookingContainer) (w : World) : World :=
  {| clock := clock w; ticks := ticks w;
     response := response w ++ [{| view := "views/booking.gohtml"; data := d |}];
     lookups := lookups w; outbox := outbox w; logs := logs w |}.

(** ** What a submission holds *)

(** The booking time parsed from the [date] and [time] fields, with the
    error of the parse. *)
Definition submitted (r : Request) (loc : Location)
  : Time * option ParseError :=
  ParseInLocation layoutDateTime
    (FormValue r "date" +:+ " " +:+ FormValue r "time") loc.

(** [ThisBooking] of the handler started in world [w]: its [MinDate] is
    the second reading of the clock. *)
Definition thisBooking (r : Request) (loc : Location) (w : World) : booking :=
  {| Name := FormValue r "name";
     Treatment := FormValue r "treatment";
     Phone := FormValue r "phone";
     BookingTime := Some (fst (submitted r loc));
     MinDate := Format (reading (tick w) loc) layoutDate |}.

(** The world in which the handler, started in [w], consults the Lookup
    service, and the one in which it calls [checkTime]. *)
Definition atLookup (r : Request) (loc : Location) (w : World) : World :=
  tick (logIf (snd (submitted r loc)) (tick w)).

Definition atCheckTime (r : Request) (loc : Location) (w : World) : World :=
  looked (FormValue r "phone") "NL" (atLookup r loc w).

(** The reminder the handler schedules. *)
Definition reminderCall (r : Request) (loc : Location) : SmsCall :=
  {| originator := "BeautyBird";
     recipients := [FormValue r "phone"];
     body := "Gentle reminder: you've got an appointment with BeautyBird at "
             +:+ Format (fst (submitted r loc)) layoutLong
             +:+ ". See you then!";
     ScheduledDatetime :=
       Add (fst (submitted r loc)) (negDuration reminderDiff) |}.

Definition successStatus (r : Request) (loc : Location) : string :=
  "Done! We've set up an appointment for you at "
  +:+ Format (fst (submitted r loc)) layoutLong +:+ " for "
  +:+ FormValue r "treatment" +:+ ". We'll send a reminder to "
  +:+ FormValue r "phone" +:+ " at "
  +:+ Format (Add (fst (submitted r loc)) (negDuration reminderDiff)) layoutLong
  +:+ ". Thanks for using BeautyBird!".

(** ** Concrete places, hosts and submissions *)

(** Summer time by the rules of the European Union, which the zone
    database gives Europe/Amsterdam from 1977 on.  It starts at 01:00 UTC on
    the first Sunday of April until 1980 and on the last Sunday of March
    since; it ends at 01:00 UTC on the last Sunday of September until 1995
    (on October 1 in 1978) and on the last Sunday of October since. *)
Definition lastSunday (y m : Z) : Z :=
  let last := daysFromCivil y m (daysIn m y) in
  last - (last + 4) mod 7.

Definition firstSunday (y m : Z) : Z :=
  let first := daysFromCivil y m 1 in
  first + (7 - (first + 4) mod 7) mod 7.

Definition euStart (y : Z) : Z :=
  (if y <=? 1980 then firstSunday y 4 else lastSunday y 3) * 86400 + 3600.

Definition euEnd (y : Z) : Z :=
  (if y =? 1978 then daysFromCivil 1978 10 1
   else if y <=? 1995 then lastSunday y 9
   else lastSunday y 10) * 86400 + 3600.

Fixpoint euYears (y : Z) (years : nat) : list zoneTrans :=
  match years with
  | O => []
  | S k =>
      {| when := euStart y; offset := 7200 |}
      :: {| when := euEnd y; offset := 3600 |}
      :: euYears (y + 1) k
  end.

(** Europe/Amsterdam as the zone database has it since the autumn of 1946:
    Central European Time, with the summer time of the European Union from
    1977 on, listed here through the year 2399 (the table of Go ends in 2037
    and goes on by the same rule).  Instants before the autumn of 1946, when
    the Netherlands kept other times, are shown in Central European Time. *)
Definition amsterdam : Location :=
  {| locName := "Europe/Amsterdam";
     firstOffset := 3600;
     tx := euYears 1977 423 |}.

(** A host that knows the zone, a Lookup service that refuses the numbers
    in [refused], and an SMS service that accepts every message. *)
Definition hostEnv (refused : list string) : Env :=
  {| LoadLocation := fun name =>
       if String.eqb name "Europe/Amsterdam" then Some amsterdam else None;
     lookupRead := fun phone _ =>
       if existsb (String.eqb phone) refused
       then Some "API errors: phone number has unknown format" else None;
     smsCreate := fun _ => inl "&{ scheduled }" |}.

(** A fresh world whose clock stands at [now]. *)
Definition worldAt (now : Time) : World :=
  {| clock := fun _ => inst now; ticks := 0; response := [];
     lookups := []; outbox := []; logs := [] |}.

Definition wallClock (y m d h mi : Z) : Time := Date y m d h mi 0 0 amsterdam.

(** [now] of the scenarios: 2024-03-01T10:00. *)
Definition scenarioNow : Time := wallClock 2024 3 1 10 0.

Definition formOf (fields : list (string * string)) : gmap string (list string) :=
  list_to_map (map (fun kv => (fst kv, [snd kv])) fields).

Definition post (name treatment phone date time : string) : Request :=
  {| Method := "POST";
     Form := formOf [("name", name); ("treatment", treatment);
                     ("phone", phone); ("date", date); ("time", time)] |}.

(** A submission with a date that is not one. *)
Definition malformed : Request :=
  post "Ann" "Manicure" "+31612345678" "next friday" "14:00".

(** ** Strings of digits *)

(** No character of the string is the letter h. *)
Fixpoint noH (s : string) : bool :=
  match s with
  | EmptyString => true
  | String c s' => negb (Ascii.eqb c "h") && noH s'
  end.

(** The last character of the string is a digit. *)
Fixpoint lastIsDigit (s : string) : bool :=
  match s with
  | EmptyString => false
  | String c EmptyString => isDigit c
  | String _ s' => lastIsDigit s'
  end.

(** The values a date input and a time input of a browser submit:
    [yyyy-mm-dd] and [hh:mm], each field in decimal with leading zeros. *)
Definition digitChar (n : Z) : ascii := ascii_of_nat (48 + Z.to_nat n).

Definition twoDigits (n : Z) : string :=
  String (digitChar (n / 10)) (String (digitChar (n mod 10)) "").

Definition fourDigits (n : Z) : string :=
  String (digitChar (n / 1000))
    (String (digitChar (n / 100 mod 10)) (twoDigits (n mod 100))).

Definition isoDate (y m d : Z) : string :=
  fourDigits y +:+ "-" +:+ twoDigits m +:+ "-" +:+ twoDigits d.

Definition isoTime (h mi : Z) : string := twoDigits h +:+ ":" +:+ twoDigits mi.

(** ** Wall clocks of a location *)

(** The seconds since the Unix epoch of a wall clock read as UTC, the
    first thing [time.Date] computes. *)
Definition civilSec (y m d h mi s : Z) : Z :=
  (daysFromCivil (y + (m - 1) / 12) ((m - 1) mod 12 + 1) 1 + (d - 1)) * 86400
  + h * 3600 + mi * 60 + s.

(** The wall clock [u] is shown in the location at one instant at least:
    the offset in force at [u] read as UTC is still in force at the instant
    it leads to.  It fails for the wall clocks a change of offset skips. *)
Definition wallClockExists (loc : Location) (u : Z) : Prop :=
  offsetAt loc (u - offsetAt loc u) = offsetAt loc u.

(** Runs the steps of the state monad, leaving the calendar alone. *)
Ltac run_go :=
  cbn -[checkTime Format Add negDuration reminderDiff].
Ltac run_go_in H :=
  cbn -[checkTime Format Add negDuration reminderDiff] in H.

(* ===================================================================== *)
(** * Lemmas on the library and on one run of [checkTime] *)
(* ===================================================================== *)

(** ** The library on the values of the program *)

Example ParseInLocation_ok :
  ParseInLocation layoutDateTime "2024-03-01 14:00" amsterdam
  = (wallClock 2024 3 1 14 0, None)
  /\ inst (wallClock 2024 3 1 14 0) = 1709298000 * Second.
Proof. split; vm_compute; reflexivity. Qed.

Example ParseInLocation_day_out_of_range :
  ParseInLocation layoutDateTime "2023-02-29 14:00" amsterdam
  = (zeroTime,
     Some {| Layout := layoutDateTime; Value := "2023-02-29 14:00" |}).
Proof. vm_compute. reflexivity. Qed.

Example Format_layouts :
  Format (wallClock 2024 7 1 9 5) layoutLong = "Mon, 01 Jul 2024 9:05 AM"
  /\ Format (wallClock 2024 7 1 0 5) layoutClock = "12:05 AM"
  /\ Format (wallClock 2024 2 29 23 5) layoutDate = "2024-02-29"
  /\ Format zeroTime layoutLong = "Mon, 01 Jan 0001 12:00 AM".
Proof. repeat split; vm_compute; reflexivity. Qed.

Example DurationString_values :
  DurationString (3 * Hour) = "3h0m0s"
  /\ DurationString (90 * Minute + 1500 * Millisecond) = "1h30m1.5s"
  /\ DurationString (30 * Minute) = "30m0s"
  /\ DurationString (-5) = "-5ns"
  /\ DurationString 0 = "0s".
Proof. repeat split; vm_compute; reflexivity. Qed.

Example Split_values :
  GoStrings.Split "3h0m0s" "h" = ["3"; "0m0s"]
  /\ GoStrings.Split "30m0s" "h" = ["30m0s"]
  /\ GoStrings.Split "" "h" = [""]
  /\ GoStrings.Split "a--b--" "--" = ["a"; "b"; ""].
Proof. repeat split; reflexivity. Qed.

Example amsterdam_transitions :
  (euStart 1977, euEnd 1977) = (228877200, 243997200)
  /\ (euStart 1978, euEnd 1978) = (260326800, 276051600)
  /\ (euStart 1980, euEnd 1980) = (323830800, 338950800)
  /\ (euStart 1981, euEnd 1995) = (354675600, 811904400)
  /\ (euStart 1996, euEnd 1996) = (828234000, 846378000)
  /\ (euStart 2024, euEnd 2024) = (1711846800, 1729990800)
  /\ offsetAt amsterdam 1711846799 = 3600
  /\ offsetAt amsterdam 1711846800 = 7200
  /\ offsetAt amsterdam 1753000000 = 7200
  /\ offsetAt amsterdam 0 = 3600.
Proof. repeat split; vm_compute; reflexivity. Qed.

(** ** [strings.Split] gives at least one field *)

Lemma splitFrom_cons sep s : forall skip cur,
  exists x xs, GoStrings.splitFrom sep skip cur s = x :: xs.
Proof.
  induction s as [|c s IH]; intros skip cur; cbn [GoStrings.splitFrom].
  - eauto.
  - destruct skip as [|k].
    + destruct (String.prefix sep (String c s)); [eauto | apply IH].
    + apply IH.
Qed.

Lemma index0_Split s sep w :
  exists h, index0 (GoStrings.Split s sep) w = Ok (h, w).
Proof.
  unfold GoStrings.Split.
  destruct (splitFrom_cons sep s O "") as (x & xs & ->).
  exists x. reflexivity.
Qed.

(** ** Saturation does not change the comparison with the lead time *)

Lemma saturate_ltb x d :
  0 <= x -> d <= maxDuration -> (saturate x <? d) = (x <? d).
Proof.
  intros Hx Hd. unfold saturate, minDuration, maxDuration in *.
  destruct (x <? - 2 ^ 63) eqn:E1; [lia|].
  destruct (2 ^ 63 - 1 <? x) eqn:E2; [|reflexivity].
  apply Z.ltb_lt in E2.
  transitivity false; [apply Z.ltb_ge; lia | symmetry; apply Z.ltb_ge; lia].
Qed.

(** ** What the sentences stand for *)

Lemma outcomeOf_notOpen a b :
  outcomeOf ("We're not open yet! Please book your appointment between "
             +:+ a +:+ " and " +:+ b +:+ ".") = Some BeforeOpening.
Proof. reflexivity. Qed.

Lemma outcomeOf_closed a b :
  outcomeOf ("We're closed! Please book your appointment between "
             +:+ a +:+ " and " +:+ b +:+ ".") = Some AfterClosing.
Proof. reflexivity. Qed.

Lemma outcomeOf_tooSoon h :
  outcomeOf ("Please book an appointment " +:+ h +:+ " hours in advance.")
  = Some TooSoon.
Proof. reflexivity. Qed.

Lemma outcomeOf_Valid s : outcomeOf s = Some Valid -> s = "Success!".
Proof.
  unfold outcomeOf.
  destruct (String.eqb s "Success!") eqn:E.
  - intros _. now apply String.eqb_eq.
  - repeat match goal with |- context [if ?c then _ else _] => destruct c end;
      discriminate.
Qed.

Lemma outcomeOf_nonempty s o : outcomeOf s = Some o -> s <> "".
Proof. intros H ->. discriminate. Qed.

(** ** One run of [checkTime] *)

Lemma checkTime_run b lead loc w :
  exists s, checkTime b lead loc w = Ok (s, tick w)
            /\ outcomeOf s = Some (switchOf b (reading w loc) lead loc).
Proof.
  unfold checkTime, switchOf, bind, timeNow, openingInstant, closingInstant,
    salonHours, reading; cbv zeta beta iota; cbn [opensAt closesAt].
  fold (tick w).
  destruct (Before b _).
  { eexists; split; reflexivity. }
  destruct (Before b _).
  { eexists; split; [reflexivity | apply outcomeOf_notOpen]. }
  destruct (After b _).
  { eexists; split; [reflexivity | apply outcomeOf_closed]. }
  destruct (Sub b _ <? lead).
  - destruct (index0_Split (DurationString lead) "h" (tick w)) as [h ->].
    eexists; split; [reflexivity | apply outcomeOf_tooSoon].
  - eexists; split; reflexivity.
Qed.

Lemma switchOf_Validate b now lead loc :
  lead <= maxDuration ->
  switchOf b now lead loc = Validate b now lead salonHours loc.
Proof.
  intros Hd. unfold switchOf, Validate, firstMatch, Before, After, Sub.
  set (o := inst (openingInstant b salonHours loc)).
  set (c := inst (closingInstant b salonHours loc)).
  rewrite Z.gtb_ltb.
  destruct (Z.ltb_spec (inst b) (inst now)); [reflexivity|].
  destruct (inst b <? o); [reflexivity|].
  destruct (c <? inst b); [reflexivity|].
  rewrite saturate_ltb by lia. reflexivity.
Qed.

Lemma firstMatch_cases a n lead o c :
  (a < n -> firstMatch a n lead o c = BeforeNow)
  /\ (n <= a -> a < o -> firstMatch a n lead o c = BeforeOpening)
  /\ (n <= a -> o <= a -> c < a -> firstMatch a n lead o c = AfterClosing)
  /\ (n <= a -> o <= a -> a <= c -> a - n < lead ->
      firstMatch a n lead o c = TooSoon)
  /\ (n <= a -> o <= a -> a <= c -> lead <= a - n ->
      firstMatch a n lead o c = Valid).
Proof.
  unfold firstMatch.
  destruct (Z.ltb_spec a n), (Z.ltb_spec a o), (Z.ltb_spec c a),
    (Z.ltb_spec (a - n) lead); repeat split; intros; try reflexivity; lia.
Qed.

(** ** Scenarios of the specification *)

Example scenario_A :
  statusOf (checkTime (wallClock 2024 3 1 14 0) (3 * Hour) amsterdam
                      (worldAt scenarioNow))
  = Some "Success!".
Proof. vm_compute. reflexivity. Qed.

(** Scenario B on the next day, so that 08:00 is not before [now]. *)
Example scenario_B :
  statusOf (checkTime (wallClock 2024 3 2 8 0) (3 * Hour) amsterdam
                      (worldAt scenarioNow))
  = Some "We're not open yet! Please book your appointment between 09:00 AM and 06:00 PM.".
Proof. vm_compute. reflexivity. Qed.

Example scenario_C :
  statusOf (checkTime (wallClock 2024 3 1 19 0) (3 * Hour) amsterdam
                      (worldAt scenarioNow))
  = Some "We're closed! Please book your appointment between 09:00 AM and 06:00 PM.".
Proof. vm_compute. reflexivity. Qed.

Example scenario_D :
  statusOf (checkTime (wallClock 2024 3 1 11 0) (3 * Hour) amsterdam
                      (worldAt scenarioNow))
  = Some "Please book an appointment 3 hours in advance.".
Proof. vm_compute. reflexivity. Qed.

Example scenario_E :
  statusOf (checkTime (wallClock 2024 2 29 9 0) (3 * Hour) amsterdam
                      (worldAt scenarioNow))
  = Some "Cannot make a booking before now. Please try again!".
Proof. vm_compute. reflexivity. Qed.

Lemma isDuration_3h : isDuration (3 * Hour).
Proof.
  unfold isDuration, minDuration, maxDuration, Hour, Minute, Second,
    Millisecond, Microsecond, Nanosecond. lia.
Defined.

(* ===================================================================== *)
(** * The time validator *)
(* ===================================================================== *)

(** C1. [checkTime] decides by the first condition that matches, in the
    order of the specification: for every booking time, lead time, location
    and world, with [now] the clock reading it takes, the run ends normally
    and its sentence stands for the outcome of [Validate] on the salon's
    hours; that is [BeforeNow] when the booking is strictly before [now],
    otherwise [BeforeOpening] when strictly before the opening instant of its
    date, otherwise [AfterClosing] when strictly after the closing instant,
    otherwise [TooSoon] when the interval from [now] is strictly less than
    the lead time, otherwise [Valid]. *)
Theorem checkTime_first_match_wins
    (bookingTime : Time) (lead : Duration) (loc : Location) (w : World) :
  isDuration lead ->
  let a := inst bookingTime in
  let n := clock w (ticks w) in
  let o := inst (openingInstant bookingTime salonHours loc) in
  let c := inst (closingInstant bookingTime salonHours loc) in
  exists status outcome,
    checkTime bookingTime lead loc w = Ok (status, tick w)
    /\ outcomeOf status = Some outcome
    /\ outcome = Validate bookingTime (reading w loc) lead salonHours loc
    /\ (a < n -> outcome = BeforeNow)
    /\ (n <= a -> a < o -> outcome = BeforeOpening)
    /\ (n <= a -> o <= a -> c < a -> outcome = AfterClosing)
    /\ (n <= a -> o <= a -> a <= c -> a - n < lead -> outcome = TooSoon)
    /\ (n <= a -> o <= a -> a <= c -> lead <= a - n -> outcome = Valid).
Proof.
  intros [_ Hmax] a n o c.
  destruct (checkTime_run bookingTime lead loc w) as (status & Hrun & Hout).
  rewrite switchOf_Validate in Hout by exact Hmax.
  exists status, (Validate bookingTime (reading w loc) lead salonHours loc).
  split; [exact Hrun|]. split; [exact Hout|]. split; [reflexivity|].
  unfold Validate. apply firstMatch_cases.
Qed.

Lemma checkTime_first_match_wins_witness :
  isDuration (3 * Hour)
  /\ exists status outcome,
       checkTime (wallClock 2024 3 1 11 0) (3 * Hour) amsterdam
                 (worldAt scenarioNow)
       = Ok (status, tick (worldAt scenarioNow))
       /\ outcomeOf status = Some outcome
       /\ outcome = TooSoon.
Proof.
  split; [exact isDuration_3h|].
  destruct (checkTime_first_match_wins (wallClock 2024 3 1 11 0) (3 * Hour)
              amsterdam (worldAt scenarioNow) isDuration_3h)
    as (status & outcome & Hrun & Hout & _ & _ & _ & _ & Hsoon & _).
  exists status, outcome. split; [exact Hrun|]. split; [exact Hout|].
  apply Hsoon; vm_compute; congruence.
Defined.

(** C2. The comparisons of [checkTime] are strict, so each boundary is on
    the valid side: a booking time equal to [now] is not answered as
    [BeforeNow], one equal to the opening instant not as [BeforeOpening], one
    equal to the closing instant not as [AfterClosing], and one exactly the
    lead time after [now] not as [TooSoon]. *)
Theorem checkTime_boundaries_inclusive
    (bookingTime : Time) (lead : Duration) (loc : Location) (w : World) :
  isDuration lead ->
  exists status,
    checkTime bookingTime lead loc w = Ok (status, tick w)
    /\ (inst bookingTime = clock w (ticks w) ->
        outcomeOf status <> Some BeforeNow)
    /\ (inst bookingTime = inst (openingInstant bookingTime salonHours loc) ->
        outcomeOf status <> Some BeforeOpening)
    /\ (inst bookingTime = inst (closingInstant bookingTime salonHours loc) ->
        outcomeOf status <> Some AfterClosing)
    /\ (inst bookingTime - clock w (ticks w) = lead ->
        outcomeOf status <> Some TooSoon).
Proof.
  intros [_ Hmax].
  destruct (checkTime_run bookingTime lead loc w) as (status & Hrun & Hout).
  rewrite switchOf_Validate in Hout by exact Hmax.
  exists status. split; [exact Hrun|]. rewrite Hout.
  unfold Validate, firstMatch, reading, In; cbn [inst].
  set (a := inst bookingTime). set (n := clock w (ticks w)).
  set (o := inst (openingInstant bookingTime salonHours loc)).
  set (c := inst (closingInstant bookingTime salonHours loc)).
  destruct (Z.ltb_spec a n), (Z.ltb_spec a o), (Z.ltb_spec c a),
    (Z.ltb_spec (a - n) lead); repeat split; intros; try discriminate; lia.
Qed.

Lemma checkTime_boundaries_inclusive_witness :
  isDuration (3 * Hour)
  /\ (exists status,
        checkTime (wallClock 2024 3 1 10 0) (3 * Hour) amsterdam
                  (worldAt scenarioNow)
        = Ok (status, tick (worldAt scenarioNow))
        /\ outcomeOf status <> Some BeforeNow)
  /\ (exists status,
        checkTime (wallClock 2024 3 4 9 0) (3 * Hour) amsterdam
                  (worldAt scenarioNow)
        = Ok (status, tick (worldAt scenarioNow))
        /\ outcomeOf status <> Some BeforeOpening)
  /\ (exists status,
        checkTime (wallClock 2024 3 1 18 0) (3 * Hour) amsterdam
                  (worldAt scenarioNow)
        = Ok (status, tick (worldAt scenarioNow))
        /\ outcomeOf status <> Some AfterClosing)
  /\ (exists status,
        checkTime (wallClock 2024 3 1 13 0) (3 * Hour) amsterdam
                  (worldAt scenarioNow)
        = Ok (status, tick (worldAt scenarioNow))
        /\ outcomeOf status <> Some TooSoon).
Proof.
  split; [exact isDuration_3h|].
  split; [|split; [|split]].
  - destruct (checkTime_boundaries_inclusive (wallClock 2024 3 1 10 0)
                (3 * Hour) amsterdam (worldAt scenarioNow) isDuration_3h)
      as (status & Hrun & H & _).
    exists status. split; [exact Hrun | apply H; vm_compute; reflexivity].
  - destruct (checkTime_boundaries_inclusive (wallClock 2024 3 4 9 0)
                (3 * Hour) amsterdam (worldAt scenarioNow) isDuration_3h)
      as (status & Hrun & _ & H & _).
    exists status. split; [exact Hrun | apply H; vm_compute; reflexivity].
  - destruct (checkTime_boundaries_inclusive (wallClock 2024 3 1 18 0)
                (3 * Hour) amsterdam (worldAt scenarioNow) isDuration_3h)
      as (status & Hrun & _ & _ & H & _).
    exists status. split; [exact Hrun | apply H; vm_compute; reflexivity].
  - destruct (checkTime_boundaries_inclusive (wallClock 2024 3 1 13 0)
                (3 * Hour) amsterdam (worldAt scenarioNow) isDuration_3h)
      as (status & Hrun & _ & _ & _ & H).
    exists status. split; [exact Hrun | apply H; vm_compute; reflexivity].
Defined.

(** C3. A booking time at or after [now], at or after the opening instant
    of its date, at or before the closing instant of that date, and at least
    the lead time after [now] is answered with the success sentence, which
    stands for [Valid]. *)
Theorem checkTime_valid
    (bookingTime : Time) (lead : Duration) (loc : Location) (w : World) :
  isDuration lead ->
  clock w (ticks w) <= inst bookingTime ->
  inst (openingInstant bookingTime salonHours loc) <= inst bookingTime ->
  inst bookingTime <= inst (closingInstant bookingTime salonHours loc) ->
  lead <= inst bookingTime - clock w (ticks w) ->
  checkTime bookingTime lead loc w = Ok ("Success!", tick w)
  /\ outcomeOf "Success!" = Some Valid.
Proof.
  intros [_ Hmax] Hnow Hopen Hclose Hlead.
  destruct (checkTime_run bookingTime lead loc w) as (status & Hrun & Hout).
  rewrite switchOf_Validate in Hout by exact Hmax.
  unfold Validate in Hout.
  destruct (firstMatch_cases (inst bookingTime) (inst (reading w loc)) lead
              (inst (openingInstant bookingTime salonHours loc))
              (inst (closingInstant bookingTime salonHours loc)))
    as (_ & _ & _ & _ & Hvalid).
  rewrite Hvalid in Hout by assumption.
  apply outcomeOf_Valid in Hout. subst status. split; [exact Hrun | reflexivity].
Qed.

Lemma checkTime_valid_witness :
  checkTime (wallClock 2024 3 1 14 0) (3 * Hour) amsterdam (worldAt scenarioNow)
  = Ok ("Success!", tick (worldAt scenarioNow))
  /\ outcomeOf "Success!" = Some Valid.
Proof.
  apply (checkTime_valid (wallClock 2024 3 1 14 0) (3 * Hour) amsterdam
           (worldAt scenarioNow) isDuration_3h);
    vm_compute; congruence.
Defined.

(** C8. [checkTime] is total: every run ends normally, and its sentence is
    not empty and stands for one of the five outcomes. *)
Theorem checkTime_total
    (bookingTime : Time) (lead : Duration) (loc : Location) (w : World) :
  exists status outcome,
    checkTime bookingTime lead loc w = Ok (status, tick w)
    /\ status <> ""
    /\ outcomeOf status = Some outcome
    /\ (outcome = Valid \/ outcome = BeforeNow \/ outcome = BeforeOpening
        \/ outcome = AfterClosing \/ outcome = TooSoon).
Proof.
  destruct (checkTime_run bookingTime lead loc w) as (status & Hrun & Hout).
  exists status, (switchOf bookingTime (reading w loc) lead loc).
  split; [exact Hrun|]. split; [exact (outcomeOf_nonempty _ _ Hout)|].
  split; [exact Hout|].
  destruct (switchOf _ _ _ _); auto.
Qed.

(* ===================================================================== *)
(** * The request handler *)
(* ===================================================================== *)

(** ** The paths of [bbScheduler] on a form submission *)

Section Paths.

Variables (env : Env) (r : Request) (w : World) (loc : Location).
Hypothesis Hzone : LoadLocation env "Europe/Amsterdam" = Some loc.
Hypothesis Hpost : Method r = "POST".

Lemma bbScheduler_phone_refused e :
  lookupRead env (FormValue r "phone") "NL" = Some e ->
  bbScheduler env r w
  = Ok (tt, rendered {| Booking := thisBooking r loc w;
                        Message := "Please enter a valid phone number." |}
                     (atCheckTime r loc w)).
Proof.
  intros Hphone.
  unfold bbScheduler, loadLocation. rewrite Hzone, Hpost.
  unfold atCheckTime, atLookup, thisBooking, submitted.
  destruct (ParseInLocation _ _ loc) as [bt perr].
  destruct perr as [pe|]; run_go; rewrite Hphone; reflexivity.
Qed.

Lemma bbScheduler_phone_accepted status :
  lookupRead env (FormValue r "phone") "NL" = None ->
  checkTime (fst (submitted r loc)) reminderDiff loc (atCheckTime r loc w)
  = Ok (status, tick (atCheckTime r loc w)) ->
  status <> "" ->
  bbScheduler env r w
  = if String.eqb status "Success!" then
      match smsCreate env (reminderCall r loc) with
      | inr e =>
          Ok (tt, rendered
                    {| Booking := thisBooking r loc w;
                       Message := e +:+ newline
                         +:+ ". Please check your details and try again!" |}
                    (logged e (sent (reminderCall r loc)
                                 (tick (atCheckTime r loc w)))))
      | inl msg =>
          Ok (tt, rendered
                    {| Booking := thisBooking r loc w;
                       Message := successStatus r loc |}
                    (logged msg (sent (reminderCall r loc)
                                   (tick (atCheckTime r loc w)))))
      end
    else
      Ok (tt, rendered {| Booking := thisBooking r loc w; Message := status |}
                       (tick (atCheckTime r loc w))).
Proof.
  intros Hphone Hrun Hne.
  unfold bbScheduler, loadLocation. rewrite Hzone, Hpost.
  revert Hrun.
  unfold atCheckTime, atLookup, thisBooking, reminderCall, successStatus,
    submitted.
  destruct (ParseInLocation _ _ loc) as [bt perr].
  assert (Hempty : String.eqb status "" = false)
    by (apply String.eqb_neq; exact Hne).
  destruct perr as [pe|]; run_go; rewrite Hphone; intros Hrun;
    unfold bind at 1; run_go; unfold bind at 1;
    unfold looked, tick, logged in Hrun; run_go_in Hrun; rewrite Hrun;
    (destruct (String.eqb status "Success!");
     [ run_go; destruct (smsCreate env _); reflexivity
     | rewrite Hempty; reflexivity ]).
Qed.

End Paths.

(** A request that is not a POST gets the empty form, pre-filled with the
    date of the first clock reading only. *)
Lemma bbScheduler_not_post env r w loc :
  LoadLocation env "Europe/Amsterdam" = Some loc ->
  String.eqb (Method r) "POST" = false ->
  bbScheduler env r w
  = Ok (tt, rendered
              {| Booking :=
                   {| Name := ""; Treatment := ""; Phone := "";
                      BookingTime := None;
                      MinDate := Format (reading w loc) layoutDate |};
                 Message := "" |}
              (tick w)).
Proof.
  intros Hzone Hget. unfold bbScheduler, loadLocation.
  rewrite Hzone, Hget. reflexivity.
Qed.

(** On a host that does not know the zone, [loc] is [nil] and the handler
    panics at its first [Time.In]. *)
Lemma bbScheduler_zone_missing env r w :
  LoadLocation env "Europe/Amsterdam" = None ->
  bbScheduler env r w = Panic "time: missing Location in call to Time.In".
Proof.
  intros Hzone. unfold bbScheduler, loadLocation. rewrite Hzone. reflexivity.
Qed.

(** ** Facts shared by the theorems on the handler *)

Lemma outcomeOf_BeforeNow s :
  outcomeOf s = Some BeforeNow ->
  s = "Cannot make a booking before now. Please try again!".
Proof.
  unfold outcomeOf.
  destruct (String.eqb s "Success!"); [discriminate|].
  destruct (String.eqb s "Cannot make a booking before now. Please try again!")
    eqn:E.
  - intros _. now apply String.eqb_eq.
  - repeat match goal with |- context [if ?c then _ else _] => destruct c end;
      discriminate.
Qed.

Lemma checkTime_before_now b lead loc w :
  inst b < clock w (ticks w) ->
  checkTime b lead loc w
  = Ok ("Cannot make a booking before now. Please try again!", tick w).
Proof.
  intros Hlt.
  destruct (checkTime_run b lead loc w) as (s & Hrun & Hout).
  unfold switchOf, Before, reading, In in Hout; cbn [inst] in Hout.
  destruct (Z.ltb_spec (inst b) (clock w (ticks w))); [|lia].
  apply outcomeOf_BeforeNow in Hout. now subst s.
Qed.

(** A failed parse gives the zero time. *)
Lemma ParseInLocation_error layout value loc :
  snd (ParseInLocation layout value loc) <> None ->
  fst (ParseInLocation layout value loc) = zeroTime.
Proof.
  unfold ParseInLocation.
  destruct (parseChunks layout value _) as [[f rest]|]; [|reflexivity].
  destruct rest; [|reflexivity].
  destruct (_ || _); [reflexivity|].
  cbn [snd]. congruence.
Qed.

Lemma negDuration_reminderDiff : negDuration reminderDiff = - (3 * Hour).
Proof. reflexivity. Qed.

(** The status does not depend on the world beyond the clock reading. *)
Lemma checkTime_status b lead loc w1 w2 :
  clock w1 (ticks w1) = clock w2 (ticks w2) ->
  statusOf (checkTime b lead loc w1) = statusOf (checkTime b lead loc w2).
Proof.
  intros Hclock.
  unfold checkTime, bind, timeNow; cbv zeta beta iota. rewrite Hclock.
  repeat match goal with
         | |- context [if ?c then _ else _] => destruct c
         end; try reflexivity.
  unfold index0. destruct (GoStrings.Split _ _); reflexivity.
Qed.

(** ** Concrete submissions *)

Example FormValue_post :
  FormValue (post "Ann" "Manicure" "+31612345678" "2024-03-01" "14:00") "phone"
  = "+31612345678"
  /\ FormValue (post "Ann" "Manicure" "+31612345678" "2024-03-01" "14:00") "fax"
     = "".
Proof. split; vm_compute; reflexivity. Qed.

(* ===================================================================== *)
(** * Determinism and frame of [checkTime] *)
(* ===================================================================== *)

(** C4, as the specification states it, fails on the program: [checkTime]
    takes [now] from the system clock, so the same booking time, lead time
    and location get two answers under two clock readings.  Here a 14:00
    appointment is accepted at 10:00 and refused as too soon at 12:00. *)
Lemma checkTime_reads_the_clock :
  statusOf (checkTime (wallClock 2024 3 1 14 0) (3 * Hour) amsterdam
                      (worldAt (wallClock 2024 3 1 10 0)))
  = Some "Success!"
  /\ statusOf (checkTime (wallClock 2024 3 1 14 0) (3 * Hour) amsterdam
                         (worldAt (wallClock 2024 3 1 12 0)))
     = Some "Please book an appointment 3 hours in advance."
  /\ ~ (forall bookingTime lead loc w1 w2,
          statusOf (checkTime bookingTime lead loc w1)
          = statusOf (checkTime bookingTime lead loc w2)).
Proof.
  assert (H1 : statusOf (checkTime (wallClock 2024 3 1 14 0) (3 * Hour)
                           amsterdam (worldAt (wallClock 2024 3 1 10 0)))
               = Some "Success!") by (vm_compute; reflexivity).
  assert (H2 : statusOf (checkTime (wallClock 2024 3 1 14 0) (3 * Hour)
                           amsterdam (worldAt (wallClock 2024 3 1 12 0)))
               = Some "Please book an appointment 3 hours in advance.")
    by (vm_compute; reflexivity).
  split; [exact H1|]. split; [exact H2|].
  intros Hall.
  specialize (Hall (wallClock 2024 3 1 14 0) (3 * Hour) amsterdam
                   (worldAt (wallClock 2024 3 1 10 0))
                   (worldAt (wallClock 2024 3 1 12 0))).
  rewrite H1, H2 in Hall. discriminate Hall.
Qed.

(** C4, amended. [checkTime] is deterministic in its arguments together
    with the clock reading it takes: two runs on the same booking time, lead
    time and location, in worlds whose clocks read the same, give the same
    status, whatever else differs between the worlds. *)
Theorem checkTime_deterministic_given_clock
    (bookingTime : Time) (lead : Duration) (loc : Location) (w1 w2 : World) :
  clock w1 (ticks w1) = clock w2 (ticks w2) ->
  statusOf (checkTime bookingTime lead loc w1)
  = statusOf (checkTime bookingTime lead loc w2)
  /\ exists status, statusOf (checkTime bookingTime lead loc w1) = Some status.
Proof.
  intros Hclock. split.
  - now apply checkTime_status.
  - destruct (checkTime_run bookingTime lead loc w1) as (s & Hrun & _).
    exists s. now rewrite Hrun.
Qed.

Lemma checkTime_deterministic_given_clock_witness :
  statusOf (checkTime (wallClock 2024 3 1 14 0) (3 * Hour) amsterdam
                      (worldAt scenarioNow))
  = statusOf (checkTime (wallClock 2024 3 1 14 0) (3 * Hour) amsterdam
                        (logged "GET /" (tick (tick (worldAt scenarioNow)))))
  /\ exists status,
       statusOf (checkTime (wallClock 2024 3 1 14 0) (3 * Hour) amsterdam
                           (worldAt scenarioNow)) = Some status.
Proof.
  apply (checkTime_deterministic_given_clock (wallClock 2024 3 1 14 0)
           (3 * Hour) amsterdam (worldAt scenarioNow)
           (logged "GET /" (tick (tick (worldAt scenarioNow))))).
  reflexivity.
Defined.



(* ===================================================================== *)
(** * The handler on a form submission *)
(* ===================================================================== *)

(** C6. On a POST whose phone number the Lookup service does not confirm
    ([lookup.Read] returns an error, whatever its cause), the handler renders
    the booking form once, with the name, treatment and phone that were
    entered and the message asking for a valid phone number, and does not
    call the SMS service. *)
Theorem invalid_phone_renders_form_and_schedules_nothing
    (env : Env) (r : Request) (w : World) (loc : Location) (e : string) :
  LoadLocation env "Europe/Amsterdam" = Some loc ->
  Method r = "POST" ->
  lookupRead env (FormValue r "phone") "NL" = Some e ->
  exists w' d,
    bbScheduler env r w = Ok (tt, w')
    /\ response w'
       = response w ++ [{| view := "views/booking.gohtml"; data := d |}]
    /\ Name (Booking d) = FormValue r "name"
    /\ Treatment (Booking d) = FormValue r "treatment"
    /\ Phone (Booking d) = FormValue r "phone"
    /\ Message d = "Please enter a valid phone number."
    /\ nameValue (yield d) = ifSet (FormValue r "name")
    /\ treatmentValue (yield d) = ifSet (FormValue r "treatment")
    /\ phoneValue (yield d) = ifSet (FormValue r "phone")
    /\ messageShown (yield d) = Some "Please enter a valid phone number."
    /\ outbox w' = outbox w.
Proof.
  intros Hzone Hpost Hphone.
  rewrite (bbScheduler_phone_refused env r w loc Hzone Hpost e Hphone).
  eexists; eexists. split; [reflexivity|].
  assert (Hbox : outbox (atCheckTime r loc w) = outbox w).
  { unfold atCheckTime, atLookup, logIf.
    destruct (snd (submitted r loc)); reflexivity. }
  assert (Hresp : response (atCheckTime r loc w) = response w).
  { unfold atCheckTime, atLookup, logIf.
    destruct (snd (submitted r loc)); reflexivity. }
  cbn [rendered response outbox]. rewrite Hresp, Hbox.
  repeat split; reflexivity.
Qed.

Lemma invalid_phone_renders_form_and_schedules_nothing_witness :
  exists w' d,
    bbScheduler (hostEnv ["12345"])
      (post "Ann" "Manicure" "12345" "2024-03-01" "14:00")
      (worldAt scenarioNow) = Ok (tt, w')
    /\ response w' = [{| view := "views/booking.gohtml"; data := d |}]
    /\ Name (Booking d) = "Ann"
    /\ Treatment (Booking d) = "Manicure"
    /\ Phone (Booking d) = "12345"
    /\ Message d = "Please enter a valid phone number."
    /\ nameValue (yield d) = Some "Ann"
    /\ treatmentValue (yield d) = Some "Manicure"
    /\ phoneValue (yield d) = Some "12345"
    /\ messageShown (yield d) = Some "Please enter a valid phone number."
    /\ outbox w' = [].
Proof.
  exact (invalid_phone_renders_form_and_schedules_nothing
           (hostEnv ["12345"])
           (post "Ann" "Manicure" "12345" "2024-03-01" "14:00")
           (worldAt scenarioNow) amsterdam
           "API errors: phone number has unknown format"
           eq_refl eq_refl eq_refl).
Defined.

(** C7. On a POST whose phone number is accepted, the handler runs the time
    validation once.  When its outcome is [Valid], the SMS service is called
    exactly once, for the reminder whose send time is the booking time minus
    three hours.  When its outcome is not [Valid], the SMS service is not
    called and the sentence of [checkTime] for that outcome is the message
    rendered. *)
Theorem valid_submission_schedules_one_reminder
    (env : Env) (r : Request) (w : World) (loc : Location) :
  LoadLocation env "Europe/Amsterdam" = Some loc ->
  Method r = "POST" ->
  lookupRead env (FormValue r "phone") "NL" = None ->
  let bookingTime := fst (submitted r loc) in
  let outcome :=
    Validate bookingTime (reading (atCheckTime r loc w) loc) reminderDiff
             salonHours loc in
  exists w' d status,
    bbScheduler env r w = Ok (tt, w')
    /\ response w'
       = response w ++ [{| view := "views/booking.gohtml"; data := d |}]
    /\ checkTime bookingTime reminderDiff loc (atCheckTime r loc w)
       = Ok (status, tick (atCheckTime r loc w))
    /\ outcomeOf status = Some outcome
    /\ (outcome = Valid ->
        exists call,
          outbox w' = outbox w ++ [call]
          /\ inst (ScheduledDatetime call) = inst bookingTime - 3 * Hour
          /\ recipients call = [FormValue r "phone"]
          /\ originator call = "BeautyBird")
    /\ (outcome <> Valid ->
        outbox w' = outbox w /\ Message d = status).
Proof.
  intros Hzone Hpost Hphone bookingTime outcome.
  destruct (checkTime_run bookingTime reminderDiff loc (atCheckTime r loc w))
    as (s & Hrun & Hout).
  rewrite switchOf_Validate in Hout
    by (unfold reminderDiff, maxDuration, Hour, Minute, Second, Millisecond,
          Microsecond, Nanosecond; lia).
  fold outcome in Hout.
  pose proof (bbScheduler_phone_accepted env r w loc Hzone Hpost s Hphone
                Hrun (outcomeOf_nonempty _ _ Hout)) as Hb.
  assert (Hbox : outbox (atCheckTime r loc w) = outbox w).
  { unfold atCheckTime, atLookup, logIf.
    destruct (snd (submitted r loc)); reflexivity. }
  assert (Hresp : response (atCheckTime r loc w) = response w).
  { unfold atCheckTime, atLookup, logIf.
    destruct (snd (submitted r loc)); reflexivity. }
  destruct (String.eqb s "Success!") eqn:Es.
  - apply String.eqb_eq in Es. subst s.
    assert (Hvalid : outcome = Valid) by (cbn in Hout; congruence).
    destruct (smsCreate env (reminderCall r loc)) as [msg|e];
      eexists; eexists; exists "Success!";
      (split; [exact Hb|]); cbn [rendered logged sent tick response outbox];
      rewrite Hresp, Hbox;
      (split; [reflexivity|]); (split; [exact Hrun|]); (split; [exact Hout|]);
      (split; [| intros Hne; contradiction]);
      intros _; exists (reminderCall r loc);
      (split; [reflexivity|]);
      (split; [| split; reflexivity]);
      unfold reminderCall; cbn [ScheduledDatetime Add inst];
      rewrite negDuration_reminderDiff; fold bookingTime; lia.
  - eexists; eexists; exists s.
    split; [exact Hb|]. cbn [rendered tick response outbox].
    rewrite Hresp, Hbox.
    split; [reflexivity|]. split; [exact Hrun|]. split; [exact Hout|].
    split.
    + intros Hvalid. rewrite Hvalid in Hout.
      apply outcomeOf_Valid in Hout. subst s. discriminate Es.
    + intros _. split; reflexivity.
Qed.

Lemma valid_submission_schedules_one_reminder_witness :
  (exists w' call,
     bbScheduler (hostEnv [])
       (post "Ann" "Manicure" "+31612345678" "2024-03-01" "14:00")
       (worldAt scenarioNow) = Ok (tt, w')
     /\ outbox w' = [call]
     /\ inst (ScheduledDatetime call) = inst (wallClock 2024 3 1 11 0))
  /\ (exists w' d,
        bbScheduler (hostEnv [])
          (post "Ann" "Manicure" "+31612345678" "2024-03-01" "11:00")
          (worldAt scenarioNow) = Ok (tt, w')
        /\ response w' = [{| view := "views/booking.gohtml"; data := d |}]
        /\ outbox w' = []
        /\ Message d = "Please book an appointment 3 hours in advance.").
Proof.
  split.
  - destruct (valid_submission_schedules_one_reminder (hostEnv [])
                (post "Ann" "Manicure" "+31612345678" "2024-03-01" "14:00")
                (worldAt scenarioNow) amsterdam eq_refl eq_refl eq_refl)
      as (w' & d & status & Hb & _ & _ & _ & Hvalid & _).
    destruct (Hvalid ltac:(vm_compute; reflexivity)) as (call & Hbox & Hat & _).
    exists w', call. split; [exact Hb|]. split; [exact Hbox|].
    rewrite Hat. vm_compute. reflexivity.
  - destruct (valid_submission_schedules_one_reminder (hostEnv [])
                (post "Ann" "Manicure" "+31612345678" "2024-03-01" "11:00")
                (worldAt scenarioNow) amsterdam eq_refl eq_refl eq_refl)
      as (w' & d & status & Hb & Hresp & Hrun & _ & _ & Hrej).
    destruct (Hrej ltac:(vm_compute; discriminate)) as (Hbox & Hmsg).
    exists w', d. split; [exact Hb|]. split; [exact Hresp|].
    split; [exact Hbox|]. rewrite Hmsg.
    assert (Hs : statusOf
                   (checkTime
                      (fst (submitted
                              (post "Ann" "Manicure" "+31612345678"
                                    "2024-03-01" "11:00") amsterdam))
                      reminderDiff amsterdam
                      (atCheckTime
                         (post "Ann" "Manicure" "+31612345678"
                               "2024-03-01" "11:00")
                         amsterdam (worldAt scenarioNow)))
                 = Some "Please book an appointment 3 hours in advance.")
      by (vm_compute; reflexivity).
    rewrite Hrun in Hs. cbn [statusOf] in Hs. congruence.
Defined.

(* ===================================================================== *)
(** * Submissions whose date and time do not parse *)
(* ===================================================================== *)

(** C5, as the specification states it, fails on the program: the parse of
    this submission fails, and the handler goes on with the zero time all the
    same.  It consults the Lookup service, reads the clock for [checkTime],
    and renders a booking that carries the zero time with the sentence of a
    booking before now; the one trace of the parse error is a log line. *)
Lemma malformed_submission_is_processed_further :
  snd (submitted malformed amsterdam)
  = Some {| Layout := layoutDateTime; Value := "next friday 14:00" |}
  /\ exists w',
       bbScheduler (hostEnv []) malformed (worldAt scenarioNow) = Ok (tt, w')
       /\ logs w'
          = [ParseErrorLine
               {| Layout := layoutDateTime; Value := "next friday 14:00" |}]
       /\ lookups w' = [("+31612345678", "NL")]
       /\ ticks w' = 3%nat
       /\ response w'
          = [{| view := "views/booking.gohtml";
                data :=
                  {| Booking :=
                       {| Name := "Ann"; Treatment := "Manicure";
                          Phone := "+31612345678";
                          BookingTime := Some zeroTime;
                          MinDate := "2024-03-01" |};
                     Message :=
                       "Cannot make a booking before now. Please try again!"
                  |} |}].
Proof.
  split; [vm_compute; reflexivity|].
  eexists. split; [vm_compute; reflexivity|].
  repeat split; reflexivity.
Qed.

(** C5, amended. When the date and time of a POST do not parse, the handler
    logs the error of the parse and goes on with the zero time as booking
    time: it consults the Lookup service for the phone number, and the
    booking it renders carries the zero time.  No message is particular to
    the failed parse.  When the phone number is refused the page shows the
    request for a valid phone number and [checkTime] is not run.  When it is
    accepted [checkTime] is run on the zero time and, unless it answers
    with success, its sentence is the message shown and no reminder is sent;
    under a clock that reads later than the zero time that sentence is the
    one of a booking before now.  (Success, which needs a clock at or before
    the zero time, leads to the two pages of the SMS call.) *)
Theorem malformed_submission_logged_and_kept
    (env : Env) (r : Request) (w : World) (loc : Location) (e : ParseError) :
  LoadLocation env "Europe/Amsterdam" = Some loc ->
  Method r = "POST" ->
  snd (submitted r loc) = Some e ->
  exists w' d,
    bbScheduler env r w = Ok (tt, w')
    /\ fst (submitted r loc) = zeroTime
    /\ (exists later, logs w' = logs w ++ ParseErrorLine e :: later)
    /\ (exists later, lookups w' = lookups w ++ (FormValue r "phone", "NL") :: later)
    /\ response w'
       = response w ++ [{| view := "views/booking.gohtml"; data := d |}]
    /\ BookingTime (Booking d) = Some zeroTime
    /\ (lookupRead env (FormValue r "phone") "NL" <> None ->
        Message d = "Please enter a valid phone number."
        /\ ticks w' = S (S (ticks w))
        /\ outbox w' = outbox w)
    /\ (lookupRead env (FormValue r "phone") "NL" = None ->
        exists status,
          checkTime zeroTime reminderDiff loc (atCheckTime r loc w)
          = Ok (status, tick (atCheckTime r loc w))
          /\ ticks w' = S (S (S (ticks w)))
          /\ (inst zeroTime < clock w (S (S (ticks w))) ->
              status = "Cannot make a booking before now. Please try again!")
          /\ (status <> "Success!" ->
              Message d = status /\ outbox w' = outbox w)
          /\ (status = "Success!" ->
              Message d = successStatus r loc
              \/ exists se,
                   smsCreate env (reminderCall r loc) = inr se
                   /\ Message d
                      = se +:+ newline
                        +:+ ". Please check your details and try again!")).
Proof.
  intros Hzone Hpost Hparse.
  assert (Hzero : fst (submitted r loc) = zeroTime).
  { apply ParseInLocation_error. unfold submitted in Hparse.
    rewrite Hparse. discriminate. }
  assert (Hat : atCheckTime r loc w
                = looked (FormValue r "phone") "NL"
                    (tick (logged (ParseErrorLine e) (tick w)))).
  { unfold atCheckTime, atLookup. rewrite Hparse. reflexivity. }
  destruct (lookupRead env (FormValue r "phone") "NL") as [le|] eqn:Hphone.
  - rewrite (bbScheduler_phone_refused env r w loc Hzone Hpost le Hphone), Hat.
    eexists; eexists. split; [reflexivity|]. split; [exact Hzero|].
    cbn [rendered looked tick logged logs lookups response ticks outbox].
    split; [exists []; reflexivity|]. split; [exists []; reflexivity|].
    split; [reflexivity|].
    cbn [Booking thisBooking BookingTime Message]. rewrite Hzero.
    split; [reflexivity|]. split; [intros _; repeat split; reflexivity|].
    intros Hno. discriminate Hno.
  - destruct (checkTime_run (fst (submitted r loc)) reminderDiff loc
                (atCheckTime r loc w)) as (s & Hrun & Hout).
    rewrite (bbScheduler_phone_accepted env r w loc Hzone Hpost s Hphone
               Hrun (outcomeOf_nonempty _ _ Hout)).
    assert (Hbefore : inst zeroTime < clock w (S (S (ticks w))) ->
                      s = "Cannot make a booking before now. Please try again!").
    { intros Hlt.
      assert (Hlt' : inst (fst (submitted r loc))
                     < clock (atCheckTime r loc w) (ticks (atCheckTime r loc w))).
      { rewrite Hzero, Hat. exact Hlt. }
      pose proof (checkTime_before_now _ reminderDiff loc _ Hlt') as Hb.
      rewrite Hrun in Hb. congruence. }
    rewrite Hzero in Hrun. rewrite Hat.
    destruct (String.eqb s "Success!") eqn:Es;
      [destruct (smsCreate env (reminderCall r loc)) as [msg|se]|];
      eexists; eexists; (split; [reflexivity|]); (split; [exact Hzero|]);
      cbn [rendered sent looked tick logged logs lookups response ticks outbox];
      (split; [eexists; rewrite <- ?app_assoc; reflexivity|]);
      (split; [exists []; reflexivity|]);
      (split; [reflexivity|]);
      cbn [Booking thisBooking BookingTime Message]; rewrite Hzero;
      (split; [reflexivity|]);
      (split; [intros Hne; contradiction|]);
      intros _; exists s; rewrite <- Hat;
      (split; [exact Hrun|]); (split; [reflexivity|]);
      (split; [exact Hbefore|]).
    + apply String.eqb_eq in Es. split; [intros Hne; contradiction|].
      intros _. left. reflexivity.
    + apply String.eqb_eq in Es. split; [intros Hne; contradiction|].
      intros _. right. exists se. split; reflexivity.
    + apply String.eqb_neq in Es. split; [|intros Hs; contradiction].
      intros _. split; reflexivity.
Qed.

Lemma malformed_submission_logged_and_kept_witness :
  exists w' d,
    bbScheduler (hostEnv []) malformed (worldAt scenarioNow) = Ok (tt, w')
    /\ fst (submitted malformed amsterdam) = zeroTime
    /\ (exists later,
          logs w' = logs (worldAt scenarioNow)
                    ++ ParseErrorLine
                         {| Layout := layoutDateTime;
                            Value := "next friday 14:00" |} :: later)
    /\ (exists later,
          lookups w' = lookups (worldAt scenarioNow)
                       ++ (FormValue malformed "phone", "NL") :: later)
    /\ response w'
       = response (worldAt scenarioNow)
         ++ [{| view := "views/booking.gohtml"; data := d |}]
    /\ BookingTime (Booking d) = Some zeroTime
    /\ Message d = "Cannot make a booking before now. Please try again!"
    /\ outbox w' = outbox (worldAt scenarioNow).
Proof.
  destruct (malformed_submission_logged_and_kept (hostEnv []) malformed
              (worldAt scenarioNow) amsterdam
              {| Layout := layoutDateTime; Value := "next friday 14:00" |}
              ltac:(vm_compute; reflexivity) ltac:(vm_compute; reflexivity)
              ltac:(vm_compute; reflexivity))
    as (w' & d & Hb & Hzero & Hlogs & Hlook & Hresp & Hbt & _ & Hacc).
  destruct (Hacc ltac:(vm_compute; reflexivity))
    as (status & _ & _ & Hbefore & Hshown & _).
  pose proof (Hbefore ltac:(vm_compute; reflexivity)) as Hs. subst status.
  destruct (Hshown ltac:(discriminate)) as (Hmsg & Hbox).
  exists w', d. repeat split; assumption.
Defined.



(* ===================================================================== *)
(** * Further properties of the handler *)
(* ===================================================================== *)

Lemma firstMatch_Valid a n lead o c :
  firstMatch a n lead o c = Valid ->
  n <= a /\ o <= a /\ a <= c /\ lead <= a - n.
Proof.
  unfold firstMatch.
  destruct (Z.ltb_spec a n), (Z.ltb_spec a o), (Z.ltb_spec c a),
    (Z.ltb_spec (a - n) lead); try discriminate. lia.
Qed.

Lemma reminderDiff_max : reminderDiff <= maxDuration.
Proof.
  unfold reminderDiff, maxDuration, Hour, Minute, Second, Millisecond,
    Microsecond, Nanosecond. lia.
Qed.

Lemma atCheckTime_fields r loc w :
  clock (atCheckTime r loc w) = clock w
  /\ ticks (atCheckTime r loc w) = S (S (ticks w))
  /\ response (atCheckTime r loc w) = response w
  /\ outbox (atCheckTime r loc w) = outbox w
  /\ lookups (atCheckTime r loc w) = lookups w ++ [(FormValue r "phone", "NL")]
  /\ logs (atCheckTime r loc w)
     = logs w ++ match snd (submitted r loc) with
                 | Some e => [ParseErrorLine e]
                 | None => []
                 end.
Proof.
  unfold atCheckTime, atLookup, logIf.
  destruct (snd (submitted r loc)); cbn; repeat split; try reflexivity.
  symmetry. apply app_nil_r.
Qed.

(** What one run of the handler adds to the world, on a host that knows
    the zone: one page, at most one lookup, at most one reminder. *)
Lemma bbScheduler_summary env r w loc :
  LoadLocation env "Europe/Amsterdam" = Some loc ->
  exists w' d calls,
    bbScheduler env r w = Ok (tt, w')
    /\ clock w' = clock w
    /\ response w'
       = response w ++ [{| view := "views/booking.gohtml"; data := d |}]
    /\ outbox w' = outbox w ++ calls
    /\ lookups w'
       = lookups w ++ (if String.eqb (Method r) "POST"
                       then [(FormValue r "phone", "NL")] else [])
    /\ (calls = []
        \/ (calls = [reminderCall r loc]
            /\ Method r = "POST"
            /\ lookupRead env (FormValue r "phone") "NL" = None
            /\ Validate (fst (submitted r loc)) (reading (atCheckTime r loc w) loc)
                        reminderDiff salonHours loc = Valid)).
Proof.
  intros Hzone.
  destruct (atCheckTime_fields r loc w) as (Hc & _ & Hresp & Hbox & Hlook & _).
  destruct (String.eqb (Method r) "POST") eqn:Hm.
  - apply String.eqb_eq in Hm.
    destruct (lookupRead env (FormValue r "phone") "NL") as [e|] eqn:Hphone.
    + rewrite (bbScheduler_phone_refused env r w loc Hzone Hm e Hphone).
      eexists; eexists; exists []. split; [reflexivity|].
      cbn [rendered clock response outbox lookups].
      rewrite Hc, Hresp, Hbox, Hlook, app_nil_r. repeat split; auto.
    + destruct (checkTime_run (fst (submitted r loc)) reminderDiff loc
                  (atCheckTime r loc w)) as (s & Hrun & Hout).
      rewrite switchOf_Validate in Hout by exact reminderDiff_max.
      rewrite (bbScheduler_phone_accepted env r w loc Hzone Hm s Hphone Hrun
                 (outcomeOf_nonempty _ _ Hout)).
      destruct (String.eqb s "Success!") eqn:Es.
      * apply String.eqb_eq in Es. subst s.
        assert (Hvalid : Validate (fst (submitted r loc))
                           (reading (atCheckTime r loc w) loc) reminderDiff
                           salonHours loc = Valid)
          by (cbn in Hout; congruence).
        destruct (smsCreate env (reminderCall r loc));
          eexists; eexists; exists [reminderCall r loc];
          (split; [reflexivity|]);
          cbn [rendered logged sent tick clock response outbox lookups];
          rewrite Hc, Hresp, Hbox, Hlook; repeat split; auto.
      * eexists; eexists; exists []. split; [reflexivity|].
        cbn [rendered tick clock response outbox lookups].
        rewrite Hc, Hresp, Hbox, Hlook, app_nil_r. repeat split; auto.
  - rewrite (bbScheduler_not_post env r w loc Hzone Hm).
    eexists; eexists; exists []. split; [reflexivity|].
    cbn [rendered tick clock response outbox lookups].
    rewrite !app_nil_r. repeat split; auto.
Qed.

(** X1. The handler panics exactly on a host that does not know the zone
    Europe/Amsterdam.  On any other host every request, whatever its method
    and form, ends normally with exactly one page of [views/booking.gohtml]
    added after what the response writer held. *)
Theorem bbScheduler_panics_iff_zone_unknown
    (env : Env) (r : Request) (w : World) :
  ((exists msg, bbScheduler env r w = Panic msg)
   <-> LoadLocation env "Europe/Amsterdam" = None)
  /\ (LoadLocation env "Europe/Amsterdam" <> None ->
      exists w' d,
        bbScheduler env r w = Ok (tt, w')
        /\ response w'
           = response w ++ [{| view := "views/booking.gohtml"; data := d |}]).
Proof.
  destruct (LoadLocation env "Europe/Amsterdam") as [loc|] eqn:Hzone.
  - destruct (bbScheduler_summary env r w loc Hzone)
      as (w' & d & calls & Hb & _ & Hresp & _).
    split.
    + split; [intros [msg Hp]; congruence | discriminate].
    + intros _. exists w', d. split; assumption.
  - split.
    + split; [reflexivity|]. intros _. eexists.
      apply bbScheduler_zone_missing. exact Hzone.
    + intros Hne. contradiction.
Qed.

Lemma bbScheduler_panics_iff_zone_unknown_witness :
  (exists msg,
     bbScheduler {| LoadLocation := fun _ => None;
                    lookupRead := fun _ _ => None;
                    smsCreate := fun _ => inl "" |}
       (post "Ann" "Manicure" "+31612345678" "2024-03-01" "14:00")
       (worldAt scenarioNow) = Panic msg)
  /\ exists w' d,
       bbScheduler (hostEnv []) malformed (worldAt scenarioNow) = Ok (tt, w')
       /\ response w'
          = response (worldAt scenarioNow)
            ++ [{| view := "views/booking.gohtml"; data := d |}].
Proof.
  split.
  - apply (proj1 (bbScheduler_panics_iff_zone_unknown _ _ _)). reflexivity.
  - apply (proj2 (bbScheduler_panics_iff_zone_unknown _ _ _)).
    vm_compute. discriminate.
Defined.

(** X2. A request whose method is not exactly POST gets the empty form,
    whatever its form holds: the Lookup and SMS services are not called,
    nothing is logged, the clock is read once, and the page shows no name,
    treatment, phone or message, only the [min] date of that reading. *)
Theorem other_methods_get_the_empty_form
    (env : Env) (r : Request) (w : World) (loc : Location) :
  LoadLocation env "Europe/Amsterdam" = Some loc ->
  Method r <> "POST" ->
  exists w' d,
    bbScheduler env r w = Ok (tt, w')
    /\ response w'
       = response w ++ [{| view := "views/booking.gohtml"; data := d |}]
    /\ lookups w' = lookups w
    /\ outbox w' = outbox w
    /\ logs w' = logs w
    /\ ticks w' = S (ticks w)
    /\ BookingTime (Booking d) = None
    /\ yield d = {| nameValue := None; treatmentValue := None;
                    phoneValue := None;
                    dateMin := Format (reading w loc) layoutDate;
                    messageShown := None |}.
Proof.
  intros Hzone Hm. apply String.eqb_neq in Hm.
  rewrite (bbScheduler_not_post env r w loc Hzone Hm).
  eexists; eexists. split; [reflexivity|]. repeat split; reflexivity.
Qed.

Lemma other_methods_get_the_empty_form_witness :
  exists w' d,
    bbScheduler (hostEnv [])
      {| Method := "post";
         Form := formOf [("name", "Ann"); ("phone", "+31612345678");
                         ("date", "2024-03-01"); ("time", "14:00")] |}
      (worldAt scenarioNow) = Ok (tt, w')
    /\ response w' = [{| view := "views/booking.gohtml"; data := d |}]
    /\ lookups w' = []
    /\ outbox w' = []
    /\ logs w' = []
    /\ ticks w' = 1%nat
    /\ BookingTime (Booking d) = None
    /\ yield d = {| nameValue := None; treatmentValue := None;
                    phoneValue := None; dateMin := "2024-03-01";
                    messageShown := None |}.
Proof.
  destruct (other_methods_get_the_empty_form (hostEnv [])
              {| Method := "post";
                 Form := formOf [("name", "Ann"); ("phone", "+31612345678");
                                 ("date", "2024-03-01"); ("time", "14:00")] |}
              (worldAt scenarioNow) amsterdam eq_refl
              ltac:(discriminate))
    as (w' & d & Hb & Hresp & Hl & Ho & Hlog & Ht & Hbt & Hy).
  exists w', d. repeat split; assumption.
Defined.

(** X3. In one run the handler calls the Lookup service exactly once on a
    POST, with the submitted phone number and country code NL, and not at all
    otherwise; it calls the SMS service at most once, and only on a POST
    whose phone number was accepted and whose booking time was found valid.
    Calls made earlier stay as they were. *)
Theorem reminder_only_after_both_checks
    (env : Env) (r : Request) (w : World) (loc : Location) :
  LoadLocation env "Europe/Amsterdam" = Some loc ->
  exists w',
    bbScheduler env r w = Ok (tt, w')
    /\ (Method r = "POST" ->
        lookups w' = lookups w ++ [(FormValue r "phone", "NL")])
    /\ (Method r <> "POST" -> lookups w' = lookups w)
    /\ (outbox w' = outbox w \/ outbox w' = outbox w ++ [reminderCall r loc])
    /\ (outbox w' <> outbox w ->
        Method r = "POST"
        /\ lookupRead env (FormValue r "phone") "NL" = None
        /\ Validate (fst (submitted r loc)) (reading (atCheckTime r loc w) loc)
                    reminderDiff salonHours loc = Valid).
Proof.
  intros Hzone.
  destruct (bbScheduler_summary env r w loc Hzone)
    as (w' & d & calls & Hb & _ & _ & Hbox & Hlook & Hcalls).
  exists w'. split; [exact Hb|].
  split; [intros Hm; rewrite Hlook, Hm; reflexivity|].
  split.
  { intros Hm. apply String.eqb_neq in Hm.
    rewrite Hlook, Hm. apply app_nil_r. }
  destruct Hcalls as [-> | (-> & Hm & Hphone & Hvalid)].
  - rewrite app_nil_r in Hbox. split; [left; exact Hbox|].
    intros Hne. contradiction.
  - split; [right; exact Hbox|]. intros _. auto.
Qed.

Lemma reminder_only_after_both_checks_witness :
  exists w',
    bbScheduler (hostEnv [])
      (post "Ann" "Manicure" "+31612345678" "2024-03-01" "14:00")
      (worldAt scenarioNow) = Ok (tt, w')
    /\ lookups w' = [("+31612345678", "NL")]
    /\ outbox w' <> []
    /\ Validate (wallClock 2024 3 1 14 0) scenarioNow reminderDiff salonHours
                amsterdam = Valid.
Proof.
  destruct (reminder_only_after_both_checks (hostEnv [])
              (post "Ann" "Manicure" "+31612345678" "2024-03-01" "14:00")
              (worldAt scenarioNow) amsterdam eq_refl)
    as (w' & Hb & Hlook & _ & _ & Hconv).
  exists w'. split; [exact Hb|]. split; [exact (Hlook eq_refl)|].
  assert (Hne : outbox w' <> []).
  { assert (Hw : option_map (fun w0 => outbox w0)
                   (match bbScheduler (hostEnv [])
                            (post "Ann" "Manicure" "+31612345678"
                                  "2024-03-01" "14:00")
                            (worldAt scenarioNow) with
                    | Ok (_, w0) => Some w0
                    | Panic _ => None
                    end) <> Some [])
      by (vm_compute; discriminate).
    rewrite Hb in Hw. cbn in Hw. congruence. }
  split; [exact Hne|].
  destruct (Hconv Hne) as (_ & _ & Hvalid). exact Hvalid.
Defined.

(** X4. Whenever a run of the handler calls the SMS service, the reminder
    is scheduled three hours before the booking time and not before the
    clock reading the booking was validated against, and the booking lies
    within 09:00 and 18:00 of its own date: no reminder is ever scheduled in
    the past of its validation. *)
Theorem reminder_is_never_in_the_past
    (env : Env) (r : Request) (w : World) (loc : Location) :
  LoadLocation env "Europe/Amsterdam" = Some loc ->
  exists w',
    bbScheduler env r w = Ok (tt, w')
    /\ (outbox w' <> outbox w ->
        let bookingTime := fst (submitted r loc) in
        let call := reminderCall r loc in
        outbox w' = outbox w ++ [call]
        /\ inst (ScheduledDatetime call) = inst bookingTime - 3 * Hour
        /\ clock w (S (S (ticks w))) <= inst (ScheduledDatetime call)
        /\ inst (openingInstant bookingTime salonHours loc) <= inst bookingTime
        /\ inst bookingTime <= inst (closingInstant bookingTime salonHours loc)).
Proof.
  intros Hzone.
  destruct (bbScheduler_summary env r w loc Hzone)
    as (w' & d & calls & Hb & _ & _ & Hbox & _ & Hcalls).
  exists w'. split; [exact Hb|].
  intros Hne bookingTime call.
  destruct Hcalls as [-> | (-> & _ & _ & Hvalid)].
  { rewrite app_nil_r in Hbox. contradiction. }
  split; [exact Hbox|].
  unfold Validate in Hvalid. apply firstMatch_Valid in Hvalid.
  destruct (atCheckTime_fields r loc w) as (Hc & Ht & _).
  unfold reading, In in Hvalid; cbn [inst] in Hvalid.
  rewrite Hc, Ht in Hvalid. fold bookingTime in Hvalid.
  assert (Hat : inst (ScheduledDatetime call) = inst bookingTime - 3 * Hour).
  { unfold call, reminderCall; cbn [ScheduledDatetime Add inst].
    rewrite negDuration_reminderDiff. fold bookingTime. lia. }
  split; [exact Hat|]. rewrite Hat.
  unfold reminderDiff in Hvalid. repeat split; lia.
Qed.

Lemma reminder_is_never_in_the_past_witness :
  exists w',
    bbScheduler (hostEnv [])
      (post "Ann" "Manicure" "+31612345678" "2024-03-01" "14:00")
      (worldAt scenarioNow) = Ok (tt, w')
    /\ inst scenarioNow
       <= inst (ScheduledDatetime
                  (reminderCall
                     (post "Ann" "Manicure" "+31612345678" "2024-03-01" "14:00")
                     amsterdam)).
Proof.
  destruct (reminder_is_never_in_the_past (hostEnv [])
              (post "Ann" "Manicure" "+31612345678" "2024-03-01" "14:00")
              (worldAt scenarioNow) amsterdam eq_refl)
    as (w' & Hb & Hsent).
  exists w'. split; [exact Hb|].
  assert (Hne : outbox w' <> outbox (worldAt scenarioNow)).
  { assert (Hw : option_map (fun w0 => outbox w0)
                   (match bbScheduler (hostEnv [])
                            (post "Ann" "Manicure" "+31612345678"
                                  "2024-03-01" "14:00")
                            (worldAt scenarioNow) with
                    | Ok (_, w0) => Some w0
                    | Panic _ => None
                    end) <> Some [])
      by (vm_compute; discriminate).
    rewrite Hb in Hw. cbn in Hw. cbn. congruence. }
  destruct (Hsent Hne) as (_ & _ & Hpast & _). exact Hpast.
Defined.

(** X5. On a POST that passed both checks the page follows the answer of
    the SMS service.  When [sms.Create] succeeds, the confirmation is shown
    and the message created is logged; when it fails, the page shows the
    error of the service followed by the request to check the details, the
    error is logged, and the confirmation is not claimed.  In both cases the
    call was made once and the form keeps the submitted name, treatment and
    phone. *)
Theorem page_follows_the_sms_service
    (env : Env) (r : Request) (w : World) (loc : Location) :
  LoadLocation env "Europe/Amsterdam" = Some loc ->
  Method r = "POST" ->
  lookupRead env (FormValue r "phone") "NL" = None ->
  Validate (fst (submitted r loc)) (reading (atCheckTime r loc w) loc)
           reminderDiff salonHours loc = Valid ->
  exists w' d,
    bbScheduler env r w = Ok (tt, w')
    /\ response w'
       = response w ++ [{| view := "views/booking.gohtml"; data := d |}]
    /\ outbox w' = outbox w ++ [reminderCall r loc]
    /\ Booking d = thisBooking r loc w
    /\ (forall msg, smsCreate env (reminderCall r loc) = inl msg ->
        Message d = successStatus r loc
        /\ logs w' = logs (atCheckTime r loc w) ++ [Line msg])
    /\ (forall e, smsCreate env (reminderCall r loc) = inr e ->
        Message d = e +:+ newline
                    +:+ ". Please check your details and try again!"
        /\ logs w' = logs (atCheckTime r loc w) ++ [Line e]).
Proof.
  intros Hzone Hpost Hphone Hvalid.
  destruct (checkTime_run (fst (submitted r loc)) reminderDiff loc
              (atCheckTime r loc w)) as (s & Hrun & Hout).
  rewrite switchOf_Validate in Hout by exact reminderDiff_max.
  rewrite Hvalid in Hout. apply outcomeOf_Valid in Hout. subst s.
  rewrite (bbScheduler_phone_accepted env r w loc Hzone Hpost _ Hphone Hrun)
    by discriminate.
  destruct (atCheckTime_fields r loc w) as (_ & _ & Hresp & Hbox & _ & _).
  cbn [String.eqb Ascii.eqb Bool.eqb].
  destruct (smsCreate env (reminderCall r loc)) as [msg|e];
    eexists; eexists; (split; [reflexivity|]);
    cbn [rendered logged sent tick response outbox logs Booking Message];
    rewrite Hresp, Hbox; repeat split; try reflexivity;
    cbn [Message]; congruence.
Qed.

Lemma page_follows_the_sms_service_witness :
  exists w' d,
    bbScheduler
      {| LoadLocation := LoadLocation (hostEnv []);
         lookupRead := lookupRead (hostEnv []);
         smsCreate := fun _ => inr "API errors: no (correct) recipients found" |}
      (post "Ann" "Manicure" "+31612345678" "2024-03-01" "14:00")
      (worldAt scenarioNow) = Ok (tt, w')
    /\ response w' = [{| view := "views/booking.gohtml"; data := d |}]
    /\ length (outbox w') = 1%nat
    /\ Message d
       = "API errors: no (correct) recipients found" +:+ newline
         +:+ ". Please check your details and try again!"
    /\ logs w' = [Line "API errors: no (correct) recipients found"].
Proof.
  destruct (page_follows_the_sms_service
              {| LoadLocation := LoadLocation (hostEnv []);
                 lookupRead := lookupRead (hostEnv []);
                 smsCreate :=
                   fun _ => inr "API errors: no (correct) recipients found" |}
              (post "Ann" "Manicure" "+31612345678" "2024-03-01" "14:00")
              (worldAt scenarioNow) amsterdam eq_refl eq_refl eq_refl
              ltac:(vm_compute; reflexivity))
    as (w' & d & Hb & Hresp & Hbox & _ & _ & Herr).
  destruct (Herr _ eq_refl) as (Hmsg & Hlogs).
  exists w', d. split; [exact Hb|]. split; [exact Hresp|].
  split; [rewrite Hbox; reflexivity|]. split; [exact Hmsg|]. exact Hlogs.
Defined.

Lemma thisBooking_ext r loc w1 w2 :
  clock w1 = clock w2 -> ticks w1 = ticks w2 ->
  thisBooking r loc w1 = thisBooking r loc w2.
Proof.
  intros Hc Ht. unfold thisBooking, reading, tick; cbn [clock ticks].
  now rewrite Hc, Ht.
Qed.

(** X6. The handler keeps no state between requests.  Started in two
    worlds whose clocks agree, on the same request and with the same answers
    of the services, it renders the same page and makes the same calls and
    log lines, each added after what the world held: what was rendered, sent,
    looked up or logged before is neither read nor changed. *)
Theorem bbScheduler_keeps_no_state
    (env : Env) (r : Request) (w1 w2 : World) (loc : Location) :
  LoadLocation env "Europe/Amsterdam" = Some loc ->
  clock w1 = clock w2 ->
  ticks w1 = ticks w2 ->
  exists w1' w2' d calls looks lines,
    bbScheduler env r w1 = Ok (tt, w1')
    /\ bbScheduler env r w2 = Ok (tt, w2')
    /\ response w1'
       = response w1 ++ [{| view := "views/booking.gohtml"; data := d |}]
    /\ response w2'
       = response w2 ++ [{| view := "views/booking.gohtml"; data := d |}]
    /\ outbox w1' = outbox w1 ++ calls
    /\ outbox w2' = outbox w2 ++ calls
    /\ lookups w1' = lookups w1 ++ looks
    /\ lookups w2' = lookups w2 ++ looks
    /\ logs w1' = logs w1 ++ lines
    /\ logs w2' = logs w2 ++ lines.
Proof.
  intros Hzone Hc Ht.
  destruct (atCheckTime_fields r loc w1) as (Hc1 & Ht1 & Hr1 & Hb1 & Hl1 & Hg1).
  destruct (atCheckTime_fields r loc w2) as (Hc2 & Ht2 & Hr2 & Hb2 & Hl2 & Hg2).
  destruct (String.eqb (Method r) "POST") eqn:Hm.
  - apply String.eqb_eq in Hm.
    destruct (lookupRead env (FormValue r "phone") "NL") as [e|] eqn:Hphone.
    + rewrite (bbScheduler_phone_refused env r w1 loc Hzone Hm e Hphone).
      rewrite (bbScheduler_phone_refused env r w2 loc Hzone Hm e Hphone).
      rewrite (thisBooking_ext r loc w2 w1) by (symmetry; assumption).
      do 6 eexists. split; [reflexivity|]. split; [reflexivity|].
      cbn [rendered response outbox lookups logs].
      rewrite Hr1, Hr2, Hb1, Hb2, Hl1, Hl2, Hg1, Hg2.
      repeat split; try reflexivity.
      * instantiate (1 := []). now rewrite app_nil_r.
      * now rewrite app_nil_r.
    + destruct (checkTime_run (fst (submitted r loc)) reminderDiff loc
                  (atCheckTime r loc w1)) as (s & Hrun1 & Hout).
      destruct (checkTime_run (fst (submitted r loc)) reminderDiff loc
                  (atCheckTime r loc w2)) as (s2 & Hrun2 & _).
      assert (Hs : s2 = s).
      { pose proof (checkTime_status (fst (submitted r loc)) reminderDiff loc
                      (atCheckTime r loc w1) (atCheckTime r loc w2)) as Hst.
        rewrite Hrun1, Hrun2, Hc1, Hc2, Ht1, Ht2, Hc, Ht in Hst.
        specialize (Hst eq_refl). cbn in Hst. congruence. }
      subst s2.
      rewrite (bbScheduler_phone_accepted env r w1 loc Hzone Hm s Hphone Hrun1
                 (outcomeOf_nonempty _ _ Hout)).
      rewrite (bbScheduler_phone_accepted env r w2 loc Hzone Hm s Hphone Hrun2
                 (outcomeOf_nonempty _ _ Hout)).
      rewrite (thisBooking_ext r loc w2 w1) by (symmetry; assumption).
      destruct (String.eqb s "Success!");
        [destruct (smsCreate env (reminderCall r loc))|];
        do 6 eexists; (split; [reflexivity|]); (split; [reflexivity|]);
        cbn [rendered logged sent tick response outbox lookups logs];
        rewrite Hr1, Hr2, Hb1, Hb2, Hl1, Hl2, Hg1, Hg2, <- ?app_assoc;
        repeat split; try reflexivity;
        try (instantiate (1 := []); now rewrite app_nil_r);
        now rewrite app_nil_r.
  - rewrite (bbScheduler_not_post env r w1 loc Hzone Hm).
    rewrite (bbScheduler_not_post env r w2 loc Hzone Hm).
    assert (Hrd : reading w2 loc = reading w1 loc)
      by (unfold reading; now rewrite Hc, Ht).
    rewrite Hrd.
    do 6 eexists. split; [reflexivity|]. split; [reflexivity|].
    cbn [rendered tick response outbox lookups logs].
    repeat split; try reflexivity;
      try (instantiate (1 := []); now rewrite app_nil_r);
      now rewrite app_nil_r.
Qed.

Lemma bbScheduler_keeps_no_state_witness :
  exists w1' w2' d calls looks lines,
    bbScheduler (hostEnv [])
      (post "Ann" "Manicure" "+31612345678" "2024-03-01" "14:00")
      (worldAt scenarioNow) = Ok (tt, w1')
    /\ bbScheduler (hostEnv [])
         (post "Ann" "Manicure" "+31612345678" "2024-03-01" "14:00")
         (sent (reminderCall malformed amsterdam)
            (logged "earlier" (worldAt scenarioNow))) = Ok (tt, w2')
    /\ response w1'
       = response (worldAt scenarioNow)
         ++ [{| view := "views/booking.gohtml"; data := d |}]
    /\ response w2'
       = response (sent (reminderCall malformed amsterdam)
                     (logged "earlier" (worldAt scenarioNow)))
         ++ [{| view := "views/booking.gohtml"; data := d |}]
    /\ outbox w1' = outbox (worldAt scenarioNow) ++ calls
    /\ outbox w2'
       = outbox (sent (reminderCall malformed amsterdam)
                   (logged "earlier" (worldAt scenarioNow))) ++ calls
    /\ lookups w1' = lookups (worldAt scenarioNow) ++ looks
    /\ lookups w2'
       = lookups (sent (reminderCall malformed amsterdam)
                    (logged "earlier" (worldAt scenarioNow))) ++ looks
    /\ logs w1' = logs (worldAt scenarioNow) ++ lines
    /\ logs w2'
       = logs (sent (reminderCall malformed amsterdam)
                 (logged "earlier" (worldAt scenarioNow))) ++ lines.
Proof.
  exact (bbScheduler_keeps_no_state (hostEnv [])
           (post "Ann" "Manicure" "+31612345678" "2024-03-01" "14:00")
           (worldAt scenarioNow)
           (sent (reminderCall malformed amsterdam)
              (logged "earlier" (worldAt scenarioNow)))
           amsterdam eq_refl eq_refl eq_refl).
Defined.

(* ===================================================================== *)
(** * The sentences of [checkTime] *)
(* ===================================================================== *)

Lemma string_app_cons x (a b : string) : String x a +:+ b = String x (a +:+ b).
Proof. reflexivity. Qed.

Lemma string_app_nil_r (a : string) : a +:+ "" = a.
Proof.
  induction a as [|x a IH]; [reflexivity|].
  now rewrite string_app_cons, IH.
Qed.

Lemma string_app_assoc (a b c : string) : (a +:+ b) +:+ c = a +:+ (b +:+ c).
Proof.
  induction a as [|x a IH]; [reflexivity|].
  now rewrite !string_app_cons, IH.
Qed.

Lemma noH_app a b : noH (a +:+ b) = noH a && noH b.
Proof.
  induction a as [|x a IH]; [reflexivity|].
  rewrite string_app_cons. cbn [noH]. rewrite IH. now rewrite andb_assoc.
Qed.

Lemma splitFrom_noH d : noH d = true -> forall cur s,
  GoStrings.splitFrom "h" O cur (d +:+ s)
  = GoStrings.splitFrom "h" O (cur +:+ d) s.
Proof.
  induction d as [|x d IH]; intros Hd cur s.
  - rewrite string_app_nil_r. reflexivity.
  - cbn [noH] in Hd. apply andb_true_iff in Hd as [Hx Hd].
    apply negb_true_iff, Ascii.eqb_neq in Hx.
    rewrite string_app_cons.
    cbn [GoStrings.splitFrom String.prefix].
    destruct (ascii_dec "h" x) as [E|_]; [congruence|].
    rewrite (IH Hd). now rewrite string_app_assoc.
Qed.

Lemma splitFrom_h cur s :
  exists rest, GoStrings.splitFrom "h" O cur (String "h" s) = cur :: rest.
Proof.
  cbn [GoStrings.splitFrom String.prefix].
  destruct (ascii_dec "h" "h") as [_|N]; [|congruence].
  destruct s; cbn [String.prefix]; eauto.
Qed.

Lemma uint_noH d : noH (NilEmpty.string_of_uint d) = true.
Proof. induction d; cbn; auto. Qed.

Lemma itoa_noH n : noH (itoa n) = true.
Proof.
  unfold itoa, NilZero.string_of_uint.
  destruct (N.to_uint (Z.to_N n)) eqn:E; try reflexivity;
    rewrite <- E; apply uint_noH.
Qed.

Lemma fmtFrac_snd k : forall v p acc,
  snd (fmtFrac k v p acc) = v / 10 ^ Z.of_nat k.
Proof.
  induction k as [|k IH]; intros v p acc.
  - cbn. now rewrite Z.div_1_r.
  - cbn [fmtFrac]. rewrite IH, Nat2Z.inj_succ, Z.pow_succ_r by lia.
    rewrite Zdiv_Zdiv by lia. reflexivity.
Qed.

Lemma fmtFrac_noH k : forall v p acc,
  noH acc = true -> noH (fst (fmtFrac k v p acc)) = true.
Proof.
  induction k as [|k IH]; intros v p acc Hacc.
  - cbn. destruct p; [cbn; exact Hacc | exact Hacc].
  - cbn [fmtFrac]. apply IH.
    destruct (p || negb (v mod 10 =? 0)); [|exact Hacc].
    rewrite noH_app, itoa_noH. exact Hacc.
Qed.

(** From one hour on, [Duration.String] starts with the whole hours and
    the letter h. *)
Lemma DurationString_hours d :
  Hour <= d ->
  exists rest, DurationString d = itoa (d / Hour) +:+ String "h" rest.
Proof.
  intros Hd.
  assert (HH : Hour = 3600 * 10 ^ Z.of_nat 9) by reflexivity.
  assert (Hp : 10 ^ Z.of_nat 9 = 1000000000) by reflexivity.
  unfold DurationString.
  rewrite Z.abs_eq by (rewrite HH, Hp in Hd; lia).
  replace (d <? Second) with false
    by (symmetry; apply Z.ltb_ge; change Second with 1000000000;
        rewrite HH, Hp in Hd; lia).
  replace (d <? 0) with false
    by (symmetry; apply Z.ltb_ge; rewrite HH, Hp in Hd; lia).
  pose proof (fmtFrac_snd 9 d false "") as Hs.
  destruct (fmtFrac 9 d false "") as [frac secs]. cbn [snd] in Hs. subst secs.
  assert (Hq : d / 10 ^ Z.of_nat 9 / 60 / 60 = d / Hour).
  { rewrite !Zdiv_Zdiv by (rewrite ?Hp; lia). rewrite HH.
    f_equal; lia. }
  assert (Hge : 1 <= d / Hour)
    by (apply Z.div_le_lower_bound; [rewrite HH, Hp; lia | lia]).
  replace (0 <? d / 10 ^ Z.of_nat 9 / 60) with true.
  2:{ symmetry; apply Z.ltb_lt.
      assert (60 <= d / 10 ^ Z.of_nat 9 / 60).
      { apply Z.div_le_lower_bound; [lia|].
        apply Z.div_le_lower_bound; [rewrite Hp; lia|].
        rewrite HH in Hd. lia. }
      lia. }
  rewrite Hq.
  replace (0 <? d / Hour) with true by (symmetry; apply Z.ltb_lt; lia).
  eexists. reflexivity.
Qed.

(** Under one hour, [Duration.String] has no letter h. *)
Lemma DurationString_noH d :
  - Hour < d < Hour -> noH (DurationString d) = true.
Proof.
  intros Hd.
  assert (HH : Hour = 3600 * 10 ^ Z.of_nat 9) by reflexivity.
  assert (Hp : 10 ^ Z.of_nat 9 = 1000000000) by reflexivity.
  assert (Hu : 0 <= Z.abs d < 3600 * 1000000000)
    by (rewrite HH, Hp in Hd; lia).
  unfold DurationString. cbv zeta. set (u := Z.abs d) in *.
  match goal with
  | |- noH (if d <? 0 then "-" +:+ ?body else ?body) = true =>
      assert (Hbody : noH body = true)
  end.
  { destruct (u <? Second).
    - destruct (u =? 0); [reflexivity|].
      destruct (u <? Microsecond); [|destruct (u <? Millisecond)];
        match goal with
        | |- context [fmtFrac ?k u false ""] =>
            pose proof (fmtFrac_noH k u false "" eq_refl) as Hf;
            destruct (fmtFrac k u false "") as [frac i]
        end; cbn [fst] in Hf;
        rewrite !noH_app, itoa_noH, Hf; reflexivity.
    - pose proof (fmtFrac_noH 9 u false "" eq_refl) as Hf.
      pose proof (fmtFrac_snd 9 u false "") as Hs.
      destruct (fmtFrac 9 u false "") as [frac secs].
      cbn [fst] in Hf. cbn [snd] in Hs.
      assert (Hh : secs / 60 / 60 = 0).
      { subst secs. rewrite !Zdiv_Zdiv by (rewrite ?Hp; lia).
        apply Z.div_small. rewrite Hp. lia. }
      rewrite Hh. cbn [Z.ltb Z.compare].
      destruct (0 <? secs / 60);
        rewrite !noH_app, !itoa_noH, Hf; reflexivity. }
  destruct (d <? 0); [|exact Hbody].
  rewrite noH_app, Hbody. reflexivity.
Qed.

Lemma checkTime_too_soon b lead loc w :
  lead <= maxDuration ->
  clock w (ticks w) <= inst b ->
  inst (openingInstant b salonHours loc) <= inst b ->
  inst b <= inst (closingInstant b salonHours loc) ->
  inst b - clock w (ticks w) < lead ->
  checkTime b lead loc w
  = match GoStrings.Split (DurationString lead) "h" with
    | h :: _ =>
        Ok ("Please book an appointment " +:+ h +:+ " hours in advance.", tick w)
    | [] => Panic "runtime error: index out of range [0] with length 0"
    end.
Proof.
  intros Hmax Hnow Hopen Hclose Hlead.
  unfold checkTime, bind, timeNow, openingInstant, closingInstant, salonHours
    in *; cbv zeta beta iota; cbn [opensAt closesAt] in *.
  fold (tick w).
  unfold Before, After, Sub, In; cbn [inst].
  rewrite Z.gtb_ltb, saturate_ltb by lia.
  repeat match goal with
         | |- context [?x <? ?y] =>
             first [ replace (x <? y) with false by (symmetry; apply Z.ltb_ge; lia)
                   | replace (x <? y) with true by (symmetry; apply Z.ltb_lt; lia) ]
         end.
  unfold index0, ret.
  destruct (GoStrings.Split (DurationString lead) "h"); reflexivity.
Qed.

(** X7. The sentence for a booking made too soon names the lead time by
    what stands before the first h of [Duration.String]: for a lead time of
    one hour or more it is the number of whole hours, the minutes and seconds
    being left out; for a lead time under one hour, whose string has no h, it
    is the whole string followed by the word hours. *)
Theorem too_soon_sentence
    (bookingTime : Time) (lead : Duration) (loc : Location) (w : World) :
  isDuration lead ->
  clock w (ticks w) <= inst bookingTime ->
  inst (openingInstant bookingTime salonHours loc) <= inst bookingTime ->
  inst bookingTime <= inst (closingInstant bookingTime salonHours loc) ->
  inst bookingTime - clock w (ticks w) < lead ->
  (Hour <= lead ->
   checkTime bookingTime lead loc w
   = Ok ("Please book an appointment " +:+ itoa (lead / Hour)
         +:+ " hours in advance.", tick w))
  /\ (lead < Hour ->
      checkTime bookingTime lead loc w
      = Ok ("Please book an appointment " +:+ DurationString lead
            +:+ " hours in advance.", tick w)).
Proof.
  intros [_ Hmax] Hnow Hopen Hclose Hlead.
  rewrite (checkTime_too_soon bookingTime lead loc w Hmax Hnow Hopen Hclose Hlead).
  unfold GoStrings.Split. split; intros Hh.
  - destruct (DurationString_hours lead Hh) as (rest & ->).
    rewrite (splitFrom_noH _ (itoa_noH _)).
    destruct (splitFrom_h ("" +:+ itoa (lead / Hour)) rest) as (tl & ->).
    reflexivity.
  - assert (Hno : noH (DurationString lead) = true).
    { apply DurationString_noH.
      assert (0 < Hour) by reflexivity. lia. }
    rewrite <- (string_app_nil_r (DurationString lead)) at 1.
    rewrite (splitFrom_noH _ Hno). reflexivity.
Qed.

Lemma too_soon_sentence_witness :
  checkTime (wallClock 2024 3 1 11 0) (90 * Minute) amsterdam
            (worldAt scenarioNow)
  = Ok ("Please book an appointment 1 hours in advance.",
        tick (worldAt scenarioNow))
  /\ checkTime (wallClock 2024 3 1 10 15) (30 * Minute) amsterdam
               (worldAt scenarioNow)
     = Ok ("Please book an appointment 30m0s hours in advance.",
           tick (worldAt scenarioNow)).
Proof.
  split.
  - apply (proj1 (too_soon_sentence (wallClock 2024 3 1 11 0) (90 * Minute)
                    amsterdam (worldAt scenarioNow)
                    ltac:(vm_compute; split; discriminate)
                    ltac:(vm_compute; discriminate)
                    ltac:(vm_compute; discriminate)
                    ltac:(vm_compute; discriminate)
                    ltac:(vm_compute; reflexivity))).
    vm_compute; discriminate.
  - apply (proj2 (too_soon_sentence (wallClock 2024 3 1 10 15) (30 * Minute)
                    amsterdam (worldAt scenarioNow)
                    ltac:(vm_compute; split; discriminate)
                    ltac:(vm_compute; discriminate)
                    ltac:(vm_compute; discriminate)
                    ltac:(vm_compute; discriminate)
                    ltac:(vm_compute; reflexivity))).
    vm_compute; reflexivity.
Defined.

Lemma Date_wallSec y m d h mi s loc :
  wallClockExists loc (civilSec y m d h mi s) ->
  wallSec (Date y m d h mi s 0 loc) = civilSec y m d h mi s.
Proof.
  unfold wallClockExists. intros Hex.
  unfold Date, wallSec, unixSec. fold (civilSec y m d h mi s).
  change (0 / Second) with 0. change (0 mod Second) with 0.
  rewrite Z.add_0_r. set (u := civilSec y m d h mi s) in *.
  assert (Ho : offsetAt loc u = fst (fst (lookup loc u))) by reflexivity.
  destruct (lookup loc u) as [[o st] sp]. cbn [fst] in Ho.
  rewrite Ho in Hex.
  assert (Hunix : (if o =? 0 then u
                   else u - (if (u - o <? st) || (sp <=? u - o)
                             then offsetAt loc (u - o) else o)) = u - o).
  { destruct (Z.eqb_spec o 0) as [->|_]; [lia|].
    destruct ((u - o <? st) || (sp <=? u - o)); [rewrite Hex|]; reflexivity. }
  rewrite Hunix. cbn [inst tloc].
  rewrite Z.add_0_r, Z.div_mul by discriminate.
  rewrite Hex. lia.
Qed.

Lemma Format_clock t h mi :
  HourOf t = h -> MinuteOf t = mi ->
  Format t layoutClock
  = appendInt (hour12 h) 2 +:+ ":" +:+ appendInt mi 2 +:+ " "
    +:+ (if 12 <=? h then "PM" else "AM").
Proof.
  intros <- <-. unfold Format, layoutClock. cbn [fold_right formatChunk].
  now rewrite string_app_nil_r.
Qed.

Lemma Format_opening b loc :
  wallClockExists loc (civilSec (Year b) (Month b) (Day b) 9 0 0) ->
  Format (openingInstant b salonHours loc) layoutClock = "09:00 AM".
Proof.
  intros Hex. unfold openingInstant, salonHours; cbn [opensAt].
  rewrite (Format_clock _ 9 0); [reflexivity| |];
    unfold HourOf, MinuteOf; rewrite (Date_wallSec _ _ _ _ _ _ _ Hex);
    unfold civilSec; set (k := daysFromCivil _ _ _ + _).
  - replace (k * 86400 + 9 * 3600 + 0 * 60 + 0) with (32400 + k * 86400) by lia.
    rewrite Z.mod_add by discriminate. reflexivity.
  - replace (k * 86400 + 9 * 3600 + 0 * 60 + 0) with (0 + (k * 24 + 9) * 3600)
      by lia.
    rewrite Z.mod_add by discriminate. reflexivity.
Qed.

Lemma Format_closing b loc :
  wallClockExists loc (civilSec (Year b) (Month b) (Day b) 18 0 0) ->
  Format (closingInstant b salonHours loc) layoutClock = "06:00 PM".
Proof.
  intros Hex. unfold closingInstant, salonHours; cbn [closesAt].
  rewrite (Format_clock _ 18 0); [reflexivity| |];
    unfold HourOf, MinuteOf; rewrite (Date_wallSec _ _ _ _ _ _ _ Hex);
    unfold civilSec; set (k := daysFromCivil _ _ _ + _).
  - replace (k * 86400 + 18 * 3600 + 0 * 60 + 0) with (64800 + k * 86400) by lia.
    rewrite Z.mod_add by discriminate. reflexivity.
  - replace (k * 86400 + 18 * 3600 + 0 * 60 + 0) with (0 + (k * 24 + 18) * 3600)
      by lia.
    rewrite Z.mod_add by discriminate. reflexivity.
Qed.

(** A table whose changes of offset all fall at 01:00 UTC, between
    offsets of zero to two hours, shows the same offset at a wall clock of
    09:00 or 18:00 read as UTC and at the instant it leads to. *)
Lemma lookupTx_at_business_hours l : forall off start k c o,
  Forall (fun t => exists a, when t = a * 86400 + 3600) l ->
  c = 32400 \/ c = 64800 ->
  0 <= o <= 7200 ->
  fst (fst (lookupTx off start l (k * 86400 + c - o)))
  = fst (fst (lookupTx off start l (k * 86400 + c))).
Proof.
  induction l as [|t l IH]; intros off start k c o Hl Hc Ho; [reflexivity|].
  apply Forall_cons_1 in Hl as [[a Ha] Hl]. cbn [lookupTx]. rewrite Ha.
  destruct (Z.ltb_spec (k * 86400 + c - o) (a * 86400 + 3600)),
    (Z.ltb_spec (k * 86400 + c) (a * 86400 + 3600));
    try reflexivity; try lia.
  apply IH; assumption.
Qed.

Lemma lookupTx_offset_range l : forall off start u,
  Forall (fun t => 0 <= offset t <= 7200) l ->
  0 <= off <= 7200 ->
  0 <= fst (fst (lookupTx off start l u)) <= 7200.
Proof.
  induction l as [|t l IH]; intros off start u Hl Hoff; [exact Hoff|].
  apply Forall_cons_1 in Hl as [Ht Hl]. cbn [lookupTx].
  destruct (u <? when t); [exact Hoff | apply IH; assumption].
Qed.

Lemma euYears_at_one_utc years : forall y,
  Forall (fun t => exists a, when t = a * 86400 + 3600) (euYears y years)
  /\ Forall (fun t => 0 <= offset t <= 7200) (euYears y years).
Proof.
  induction years as [|k IH]; intros y; [split; constructor|].
  destruct (IH (y + 1)) as [H1 H2]. cbn [euYears].
  split; repeat constructor; cbn [when offset]; try lia; try assumption;
    unfold euStart, euEnd; eexists; reflexivity.
Qed.

(** In Europe/Amsterdam the offset changes at 01:00 UTC, so 09:00 and 18:00
    exist on every day. *)
Lemma amsterdam_business_hours_exist y m d :
  wallClockExists amsterdam (civilSec y m d 9 0 0)
  /\ wallClockExists amsterdam (civilSec y m d 18 0 0).
Proof.
  destruct (euYears_at_one_utc 423 1977) as [Hwhen Hoff].
  unfold wallClockExists, civilSec. set (k := daysFromCivil _ _ _ + _).
  unfold offsetAt, lookup, amsterdam; cbn [firstOffset tx].
  split.
  - replace (k * 86400 + 9 * 3600 + 0 * 60 + 0) with (k * 86400 + 32400) by lia.
    apply lookupTx_at_business_hours; [exact Hwhen | auto |].
    apply lookupTx_offset_range; [exact Hoff | lia].
  - replace (k * 86400 + 18 * 3600 + 0 * 60 + 0) with (k * 86400 + 64800) by lia.
    apply lookupTx_at_business_hours; [exact Hwhen | auto |].
    apply lookupTx_offset_range; [exact Hoff | lia].
Qed.

(** X8. Where 09:00 and 18:00 exist as wall clocks on the date of the
    booking (as they do on every date in Europe/Amsterdam), the two sentences
    for a booking outside business hours name the hours as 09:00 AM and
    06:00 PM, whatever the booking time and the season: a booking at or after
    now but before the opening instant gets the not-open sentence, one after
    the closing instant the closed sentence. *)
Theorem closed_hours_sentences
    (bookingTime : Time) (lead : Duration) (loc : Location) (w : World) :
  wallClockExists loc
    (civilSec (Year bookingTime) (Month bookingTime) (Day bookingTime) 9 0 0) ->
  wallClockExists loc
    (civilSec (Year bookingTime) (Month bookingTime) (Day bookingTime) 18 0 0) ->
  clock w (ticks w) <= inst bookingTime ->
  (inst bookingTime < inst (openingInstant bookingTime salonHours loc) ->
   checkTime bookingTime lead loc w
   = Ok ("We're not open yet! Please book your appointment between 09:00 AM and 06:00 PM.",
         tick w))
  /\ (inst (openingInstant bookingTime salonHours loc) <= inst bookingTime ->
      inst (closingInstant bookingTime salonHours loc) < inst bookingTime ->
      checkTime bookingTime lead loc w
      = Ok ("We're closed! Please book your appointment between 09:00 AM and 06:00 PM.",
            tick w)).
Proof.
  intros Hex9 Hex18 Hnow.
  pose proof (Format_opening bookingTime loc Hex9) as Hf9.
  pose proof (Format_closing bookingTime loc Hex18) as Hf18.
  unfold checkTime, bind, timeNow, ret; cbv zeta beta iota. fold (tick w).
  change (Date (Year bookingTime) (Month bookingTime) (Day bookingTime)
               9 0 0 0 loc)
    with (openingInstant bookingTime salonHours loc).
  change (Date (Year bookingTime) (Month bookingTime) (Day bookingTime)
               18 0 0 0 loc)
    with (closingInstant bookingTime salonHours loc).
  rewrite Hf9, Hf18.
  unfold Before, After, In; cbn [inst]. rewrite Z.gtb_ltb.
  replace (inst bookingTime <? clock w (ticks w)) with false
    by (symmetry; apply Z.ltb_ge; lia).
  split.
  - intros Hlt.
    replace (inst bookingTime <? inst (openingInstant bookingTime salonHours loc))
      with true by (symmetry; apply Z.ltb_lt; lia).
    reflexivity.
  - intros Hge Hgt.
    replace (inst bookingTime <? inst (openingInstant bookingTime salonHours loc))
      with false by (symmetry; apply Z.ltb_ge; lia).
    replace (inst (closingInstant bookingTime salonHours loc) <? inst bookingTime)
      with true by (symmetry; apply Z.ltb_lt; lia).
    reflexivity.
Qed.

Lemma closed_hours_sentences_witness :
  checkTime (wallClock 2024 7 15 8 30) (3 * Hour) amsterdam (worldAt scenarioNow)
  = Ok ("We're not open yet! Please book your appointment between 09:00 AM and 06:00 PM.",
        tick (worldAt scenarioNow))
  /\ checkTime (wallClock 2024 12 24 18 1) (3 * Hour) amsterdam
               (worldAt scenarioNow)
     = Ok ("We're closed! Please book your appointment between 09:00 AM and 06:00 PM.",
           tick (worldAt scenarioNow)).
Proof.
  split.
  - apply (proj1 (closed_hours_sentences (wallClock 2024 7 15 8 30) (3 * Hour)
                    amsterdam (worldAt scenarioNow)
                    ltac:(vm_compute; reflexivity)
                    ltac:(vm_compute; reflexivity)
                    ltac:(vm_compute; discriminate))).
    vm_compute; reflexivity.
  - apply (proj2 (closed_hours_sentences (wallClock 2024 12 24 18 1) (3 * Hour)
                    amsterdam (worldAt scenarioNow)
                    ltac:(vm_compute; reflexivity)
                    ltac:(vm_compute; reflexivity)
                    ltac:(vm_compute; discriminate)));
      vm_compute; congruence.
Defined.

(* ===================================================================== *)
(** * The date and time of a submission *)
(* ===================================================================== *)

Lemma digitChar_cases k :
  0 <= k <= 9 ->
  isDigit (digitChar k) = true
  /\ digitVal (digitChar k) = k
  /\ Ascii.eqb (digitChar k) " " = false.
Proof.
  intros Hk.
  assert (Hc : k = 0 \/ k = 1 \/ k = 2 \/ k = 3 \/ k = 4 \/ k = 5 \/ k = 6
               \/ k = 7 \/ k = 8 \/ k = 9) by lia.
  repeat (destruct Hc as [-> | Hc]; [repeat split; reflexivity|]).
  subst k. repeat split; reflexivity.
Qed.

Lemma getnum_twoDigits n rest fixed :
  0 <= n <= 99 ->
  getnum (twoDigits n +:+ rest) fixed = Some (n, rest).
Proof.
  intros Hn. unfold twoDigits. rewrite !string_app_cons. cbn [getnum].
  pose proof (Z.div_mod n 10 ltac:(discriminate)) as Hdm.
  pose proof (Z.mod_pos_bound n 10 ltac:(lia)) as Hmb.
  destruct (digitChar_cases (n / 10)) as (-> & -> & _); [lia|].
  destruct (digitChar_cases (n mod 10)) as (-> & -> & _); [lia|].
  do 2 f_equal. lia.
Qed.

Lemma parseChunk_year y rest f :
  0 <= y <= 9999 ->
  parseChunk stdLongYear (fourDigits y +:+ rest) f
  = Some ({| fYear := y; fMonth := fMonth f; fDay := fDay f;
             fHour := fHour f; fMin := fMin f |}, rest).
Proof.
  intros Hy. unfold fourDigits, twoDigits. rewrite !string_app_cons.
  cbn [parseChunk].
  pose proof (Z.div_mod y 1000 ltac:(discriminate)) as H1.
  pose proof (Z.mod_pos_bound y 1000 ltac:(lia)) as H2.
  pose proof (Z.div_mod (y / 100) 10 ltac:(discriminate)) as H3.
  pose proof (Z.mod_pos_bound (y / 100) 10 ltac:(lia)) as H4.
  pose proof (Z.div_mod y 100 ltac:(discriminate)) as H5.
  pose proof (Z.mod_pos_bound y 100 ltac:(lia)) as H6.
  pose proof (Z.div_mod (y mod 100) 10 ltac:(discriminate)) as H7.
  pose proof (Z.mod_pos_bound (y mod 100) 10 ltac:(lia)) as H8.
  assert (H9 : y / 1000 = y / 100 / 10)
    by (rewrite Zdiv_Zdiv by lia; reflexivity).
  destruct (digitChar_cases (y / 1000)) as (-> & -> & _); [lia|].
  destruct (digitChar_cases (y / 100 mod 10)) as (-> & -> & _); [lia|].
  destruct (digitChar_cases (y mod 100 / 10)) as (-> & -> & _); [lia|].
  destruct (digitChar_cases (y mod 100 mod 10)) as (-> & -> & _); [lia|].
  cbn [andb]. do 3 f_equal. lia.
Qed.

Lemma skip_space_digit k rest :
  0 <= k <= 9 ->
  skip (String " " (String (digitChar k) rest)) " "
  = Some (String (digitChar k) rest).
Proof.
  intros Hk. destruct (digitChar_cases k Hk) as (_ & _ & Hsp).
  unfold skip. cbn [skipFrom cutspace].
  cbn [Ascii.eqb Bool.eqb]. cbn [cutspace]. rewrite Hsp. reflexivity.
Qed.

Lemma string_app_nil_l (a : string) : "" +:+ a = a.
Proof. reflexivity. Qed.

Lemma parseChunk_dash rest f :
  parseChunk (lit "-") (String "-" rest) f = Some (f, rest).
Proof. reflexivity. Qed.

Lemma parseChunk_colon rest f :
  parseChunk (lit ":") (String ":" rest) f = Some (f, rest).
Proof. reflexivity. Qed.

Lemma parseChunk_space n rest f :
  0 <= n <= 99 ->
  parseChunk (lit " ") (String " " (twoDigits n +:+ rest)) f
  = Some (f, twoDigits n +:+ rest).
Proof.
  intros Hn. unfold twoDigits. rewrite !string_app_cons. cbn [parseChunk].
  pose proof (Z.div_mod n 10 ltac:(discriminate)).
  pose proof (Z.mod_pos_bound n 10 ltac:(lia)).
  rewrite skip_space_digit by lia. reflexivity.
Qed.

Lemma parseChunk_month m rest f :
  1 <= m <= 12 ->
  parseChunk stdZeroMonth (twoDigits m +:+ rest) f
  = Some ({| fYear := fYear f; fMonth := m; fDay := fDay f;
             fHour := fHour f; fMin := fMin f |}, rest).
Proof.
  intros Hm. cbn [parseChunk]. rewrite getnum_twoDigits by lia.
  replace ((m <=? 0) || (12 <? m)) with false; [reflexivity|].
  symmetry; apply orb_false_iff; split; [apply Z.leb_gt | apply Z.ltb_ge]; lia.
Qed.

Lemma parseChunk_day d rest f :
  0 <= d <= 99 ->
  parseChunk stdZeroDay (twoDigits d +:+ rest) f
  = Some ({| fYear := fYear f; fMonth := fMonth f; fDay := d;
             fHour := fHour f; fMin := fMin f |}, rest).
Proof.
  intros Hd. cbn [parseChunk]. now rewrite getnum_twoDigits by lia.
Qed.

Lemma parseChunk_hour h rest f :
  0 <= h <= 23 ->
  parseChunk stdHour (twoDigits h +:+ rest) f
  = Some ({| fYear := fYear f; fMonth := fMonth f; fDay := fDay f;
             fHour := h; fMin := fMin f |}, rest).
Proof.
  intros Hh. cbn [parseChunk]. rewrite getnum_twoDigits by lia.
  replace ((h <? 0) || (24 <=? h)) with false; [reflexivity|].
  symmetry; apply orb_false_iff; split; [apply Z.ltb_ge | apply Z.leb_gt]; lia.
Qed.

Lemma parseChunk_minute mi rest f :
  0 <= mi <= 59 ->
  parseChunk stdZeroMinute (twoDigits mi +:+ rest) f
  = Some ({| fYear := fYear f; fMonth := fMonth f; fDay := fDay f;
             fHour := fHour f; fMin := mi |}, rest).
Proof.
  intros Hmi. cbn [parseChunk]. rewrite getnum_twoDigits by lia.
  replace ((mi <? 0) || (60 <=? mi)) with false; [reflexivity|].
  symmetry; apply orb_false_iff; split; [apply Z.ltb_ge | apply Z.leb_gt]; lia.
Qed.

Lemma parse_wellformed y m d h mi :
  0 <= y <= 9999 -> 1 <= m <= 12 -> 0 <= d <= 99 ->
  0 <= h <= 23 -> 0 <= mi <= 59 ->
  parseChunks layoutDateTime (isoDate y m d +:+ " " +:+ isoTime h mi)
    {| fYear := 0; fMonth := 1; fDay := 1; fHour := 0; fMin := 0 |}
  = Some ({| fYear := y; fMonth := m; fDay := d; fHour := h; fMin := mi |}, "").
Proof.
  intros Hy Hm Hd Hh Hmi.
  unfold isoDate, isoTime, layoutDateTime. rewrite !string_app_assoc.
  cbn [parseChunks].
  rewrite parseChunk_year by exact Hy.
  rewrite !string_app_cons, !string_app_nil_l.
  rewrite parseChunk_dash, parseChunk_month by exact Hm.
  rewrite parseChunk_dash, parseChunk_day by exact Hd.
  rewrite parseChunk_space by lia.
  rewrite parseChunk_hour by exact Hh.
  rewrite parseChunk_colon.
  rewrite <- (string_app_nil_r (twoDigits mi)).
  rewrite parseChunk_minute by exact Hmi.
  reflexivity.
Qed.

(** X9. The date and time fields as a browser submits them, [yyyy-mm-dd]
    and [hh:mm] for a day that exists, parse without an error: the booking
    time of the submission is that wall clock in the handler's location, at
    zero seconds. *)
Theorem wellformed_submission_parses
    (r : Request) (loc : Location) (y m d h mi : Z) :
  0 <= y <= 9999 -> 1 <= m <= 12 -> 1 <= d <= daysIn m y ->
  0 <= h <= 23 -> 0 <= mi <= 59 ->
  FormValue r "date" = isoDate y m d ->
  FormValue r "time" = isoTime h mi ->
  submitted r loc = (Date y m d h mi 0 0 loc, None).
Proof.
  intros Hy Hm Hd Hh Hmi Hdate Htime.
  assert (Hd99 : daysIn m y <= 31).
  { unfold daysIn.
    repeat match goal with
           | |- context [if ?c then _ else _] => destruct c
           end; lia. }
  unfold submitted, ParseInLocation. rewrite Hdate, Htime.
  rewrite parse_wellformed by lia. cbn [fYear fMonth fDay fHour fMin].
  replace ((d <? 1) || (daysIn m y <? d)) with false; [reflexivity|].
  symmetry; apply orb_false_iff; split; apply Z.ltb_ge; lia.
Qed.

Lemma wellformed_submission_parses_witness :
  submitted (post "Ann" "Manicure" "+31612345678" "2024-02-29" "09:05") amsterdam
  = (Date 2024 2 29 9 5 0 0 amsterdam, None).
Proof.
  apply (wellformed_submission_parses
           (post "Ann" "Manicure" "+31612345678" "2024-02-29" "09:05")
           amsterdam 2024 2 29 9 5);
    vm_compute; try reflexivity; split; discriminate.
Defined.

(** ** Submissions that lack the date or the time *)

Lemma FormValue_missing r key : Form r !! key = None -> FormValue r key = "".
Proof. intros H. unfold FormValue. now rewrite H. Qed.

Lemma parseChunk_year_space rest f :
  parseChunk stdLongYear (String " " rest) f = None.
Proof. destruct rest as [|a [|b [|c rest]]]; reflexivity. Qed.

Lemma cutspace_suffix s : exists p, s = p +:+ cutspace s.
Proof.
  induction s as [|c s (p & IH)]; [exists ""; reflexivity|].
  cbn [cutspace]. destruct (Ascii.eqb c " ").
  - exists (String c p). rewrite string_app_cons. now rewrite <- IH.
  - exists "". reflexivity.
Qed.

Lemma skipFrom_suffix prefix : forall inRun value v,
  skipFrom inRun prefix value = Some v -> exists p, value = p +:+ v.
Proof.
  induction prefix as [|c prefix IH]; intros inRun value v; cbn [skipFrom].
  - intros [= ->]. exists "". reflexivity.
  - destruct (Ascii.eqb c " ").
    + destruct inRun; [apply IH|].
      destruct value as [|x value]; [apply IH|].
      destruct (Ascii.eqb x " "); [|discriminate].
      intros H. apply IH in H as (p & Hp).
      destruct (cutspace_suffix (String x value)) as (q & Hq).
      exists (q +:+ p). rewrite string_app_assoc, <- Hp. exact Hq.
    + destruct value as [|x value]; [discriminate|].
      destruct (Ascii.eqb x c); [|discriminate].
      intros H. apply IH in H as (p & ->).
      exists (String x p). reflexivity.
Qed.

Lemma getnum_suffix s fixed n v :
  getnum s fixed = Some (n, v) -> exists p, s = p +:+ v.
Proof.
  unfold getnum. destruct s as [|a s]; [discriminate|].
  destruct (isDigit a); [|discriminate].
  destruct s as [|b s].
  - destruct fixed; [discriminate|]. intros [= _ <-].
    exists (String a ""). reflexivity.
  - destruct (isDigit b).
    + intros [= _ <-]. exists (String a (String b "")). reflexivity.
    + destruct fixed; [discriminate|]. intros [= _ <-].
      exists (String a ""). reflexivity.
Qed.

Lemma parseChunk_suffix c value f f' v :
  parseChunk c value f = Some (f', v) -> exists p, value = p +:+ v.
Proof.
  destruct c; cbn [parseChunk]; try discriminate.
  - destruct value as [|a [|b [|c [|d value]]]]; try discriminate.
    destruct (_ && _); [|discriminate]. intros [= _ <-].
    exists (String a (String b (String c (String d "")))). reflexivity.
  - destruct (getnum value true) as [[n v0]|] eqn:E; [|discriminate].
    destruct (_ || _); [discriminate|]. intros [= _ <-].
    eapply getnum_suffix; eassumption.
  - destruct (getnum value true) as [[n v0]|] eqn:E; [|discriminate].
    intros [= _ <-]. eapply getnum_suffix; eassumption.
  - destruct (getnum value false) as [[n v0]|] eqn:E; [|discriminate].
    destruct (_ || _); [discriminate|]. intros [= _ <-].
    eapply getnum_suffix; eassumption.
  - destruct (getnum value true) as [[n v0]|] eqn:E; [|discriminate].
    destruct (_ || _); [discriminate|]. intros [= _ <-].
    eapply getnum_suffix; eassumption.
  - destruct (skip value s) as [v0|] eqn:E; [|discriminate].
    intros [= _ <-]. eapply skipFrom_suffix; exact E.
Qed.

Lemma parseChunks_suffix layout : forall value f f' v,
  parseChunks layout value f = Some (f', v) -> exists p, value = p +:+ v.
Proof.
  induction layout as [|c layout IH]; intros value f f' v; cbn [parseChunks].
  - intros [= _ <-]. exists "". reflexivity.
  - destruct (parseChunk c value f) as [[f1 v1]|] eqn:E; [|discriminate].
    intros H. apply IH in H as (q & ->).
    apply parseChunk_suffix in E as (p & ->).
    exists (p +:+ q). now rewrite string_app_assoc.
Qed.

Lemma parseChunks_snoc layout c : forall value f,
  parseChunks (layout ++ [c]) value f
  = match parseChunks layout value f with
    | Some (f1, v1) => parseChunk c v1 f1
    | None => None
    end.
Proof.
  induction layout as [|x layout IH]; intros value f.
  - cbn [app parseChunks]. destruct (parseChunk c value f) as [[f1 v1]|];
      reflexivity.
  - cbn [app parseChunks]. destruct (parseChunk x value f) as [[f1 v1]|];
      [apply IH | reflexivity].
Qed.

Lemma lastIsDigit_app p v : v <> "" -> lastIsDigit (p +:+ v) = lastIsDigit v.
Proof.
  intros Hv. induction p as [|c p IH]; [reflexivity|].
  rewrite string_app_cons. cbn [lastIsDigit].
  destruct (p +:+ v) as [|a s] eqn:E; [|exact IH].
  destruct p; [rewrite string_app_nil_l in E; contradiction | discriminate].
Qed.

Lemma getnum_fixed_end s n :
  getnum s true = Some (n, "") -> lastIsDigit s = true.
Proof.
  unfold getnum. destruct s as [|a s]; [discriminate|].
  destruct (isDigit a); [|discriminate].
  destruct s as [|b s]; [discriminate|].
  destruct (isDigit b) eqn:Eb; [|discriminate].
  intros [= _ ->]. exact Eb.
Qed.

(** A value that parses with the layout of the handler ends with the
    second digit of the minutes. *)
Lemma parsed_value_ends_with_digit value f f' :
  parseChunks layoutDateTime value f = Some (f', "") ->
  lastIsDigit value = true.
Proof.
  change layoutDateTime
    with ([stdLongYear; lit "-"; stdZeroMonth; lit "-"; stdZeroDay; lit " ";
           stdHour; lit ":"] ++ [stdZeroMinute]).
  rewrite parseChunks_snoc.
  destruct (parseChunks _ value f) as [[f1 v1]|] eqn:E; [|discriminate].
  apply parseChunks_suffix in E as (p & ->).
  cbn [parseChunk].
  destruct (getnum v1 true) as [[mi v2]|] eqn:Eg; [|discriminate].
  destruct (_ || _); [discriminate|]. intros [= _ ->].
  pose proof (getnum_fixed_end _ _ Eg) as Hlast.
  rewrite lastIsDigit_app; [exact Hlast|].
  intros ->. discriminate Eg.
Qed.

(** X10. A submission that lacks the date or the time never parses: when
    the [date] key or the [time] key is absent from the form, or its value is
    empty, [time.ParseInLocation] returns an error whatever the other field
    holds, and the booking time of the handler is the zero time. *)
Theorem submission_without_date_or_time_fails (r : Request) (loc : Location) :
  (Form r !! "date" = None \/ FormValue r "date" = ""
   \/ Form r !! "time" = None \/ FormValue r "time" = "") ->
  snd (submitted r loc) <> None /\ fst (submitted r loc) = zeroTime.
Proof.
  intros H.
  assert (Hfield : FormValue r "date" = "" \/ FormValue r "time" = "").
  { destruct H as [H | [H | [H | H]]]; auto using FormValue_missing. }
  clear H.
  assert (Herr : snd (submitted r loc) <> None).
  { unfold submitted, ParseInLocation.
    destruct Hfield as [-> | ->].
    - rewrite string_app_nil_l, string_app_cons, string_app_nil_l.
      cbn [parseChunks layoutDateTime]. rewrite parseChunk_year_space.
      discriminate.
    - destruct (parseChunks _ _ _) as [[f rest]|] eqn:E; [|discriminate].
      destruct rest; [|discriminate].
      apply parsed_value_ends_with_digit in E.
      rewrite lastIsDigit_app in E by discriminate. discriminate E. }
  split; [exact Herr|]. apply ParseInLocation_error. exact Herr.
Qed.

Lemma submission_without_date_or_time_fails_witness :
  (snd (submitted
          {| Method := "POST";
             Form := formOf [("name", "Ann"); ("phone", "+31612345678");
                             ("time", "14:00")] |} amsterdam) <> None
   /\ fst (submitted
             {| Method := "POST";
                Form := formOf [("name", "Ann"); ("phone", "+31612345678");
                                ("time", "14:00")] |} amsterdam) = zeroTime)
  /\ (snd (submitted (post "Ann" "Manicure" "+31612345678" "2024-03-01" "")
                     amsterdam) <> None
      /\ fst (submitted (post "Ann" "Manicure" "+31612345678" "2024-03-01" "")
                        amsterdam) = zeroTime).
Proof.
  split.
  - apply submission_without_date_or_time_fails.
    left. vm_compute. reflexivity.
  - apply submission_without_date_or_time_fails.
    right; right; right. vm_compute. reflexivity.
Defined.
